(** * Unified projection camera (aslam_cv2): a shallow embedding

    The development follows
    [aslam_cv/src/camera-unified-projection.cc] and
    [aslam_cv/include/aslam/cameras/camera-unified-projection.h].
    A C++ [double] is an IEEE-754 binary64 number, embedded as Rocq's
    primitive [float]: every arithmetic operation and comparison below is the
    correctly rounded binary64 one, and every definition computes. *)

From Stdlib Require Import ZArith List Bool Lia String.
From Stdlib Require Import Uint63 Floats.
Import ListNotations.

Set Warnings "-inexact-float".

(** ** Doubles *)

Module Double.
Local Open Scope float_scope.

(** C++ [a > b] and [a >= b] on doubles. *)
Definition gtb (a b : float) : bool := b <? a.
Definition geb (a b : float) : bool := b <=? a.

(** [std::max(a, b)] is [(a < b) ? b : a]. *)
Definition std_max (a b : float) : float := if a <? b then b else a.

(** Conversion of an unsigned 32-bit integer to [double] (exact). *)
Definition of_uint32 (n : Z) : float := PrimFloat.of_uint63 (Uint63.of_Z n).
End Double.

Infix ">?" := Double.gtb (at level 70, no associativity) : float_scope.
Infix ">=?" := Double.geb (at level 70, no associativity) : float_scope.

(** ** Fatal errors

    [CHECK], [CHECK_EQ], [CHECK_NOTNULL] and the like abort the process; a
    computation that can reach one returns a [result]. *)

Inductive result (A : Type) : Type :=
| Ok (a : A)
| Fatal (msg : string).
Arguments Ok {A} a.
Arguments Fatal {A} msg.

Definition bind {A B : Type} (m : result A) (k : A -> result B) : result B :=
  match m with
  | Ok a => k a
  | Fatal msg => Fatal msg
  end.

Notation "x <- m ;; k" := (bind m (fun x => k))
  (at level 61, m at next level, right associativity).
Notation "' pat <- m ;; k" := (bind m (fun x => match x with pat => k end))
  (at level 61, pat pattern, m at next level, right associativity).

Definition is_ok {A : Type} (m : result A) : bool :=
  match m with Ok _ => true | Fatal _ => false end.

(** A pointer is an [option]: [None] is [nullptr], [Some a] points to [a]. *)
Definition non_null {A : Type} (p : option A) : bool :=
  match p with Some _ => true | None => false end.

(** ** The Eigen types the camera uses *)

Module Eigen.
Local Open Scope float_scope.

(** [Eigen::VectorXd]: a vector whose size is known at run time. *)
Definition VectorXd := list float.

(** [v[i]] for an index inside the vector. *)
Definition coeff (v : VectorXd) (i : nat) : float := nth i v 0.

Definition size (v : VectorXd) : Z := Z.of_nat (List.length v).

Record Vector2d := V2 { v2_0 : float; v2_1 : float }.
Record Vector3d := V3 { v3_0 : float; v3_1 : float; v3_2 : float }.

Record Matrix2d :=
  M22 { m00 : float; m01 : float;
        m10 : float; m11 : float }.

Record Matrix23 :=
  M23 { j00 : float; j01 : float; j02 : float;
        j10 : float; j11 : float; j12 : float }.

(** [Eigen::Matrix<double, 2, Eigen::Dynamic>]: two rows of equal,
    run-time length. *)
Record Matrix2X := M2X { row0 : list float; row1 : list float }.

Definition Identity2 : Matrix2d := M22 1 0 0 1.

(** [setZero] on a fixed-size 2-vector. *)
Definition Zero2 : Vector2d := V2 0 0.

(** [m.resize(2, n); m.setZero()]. *)
Definition zeros2X (n : nat) : Matrix2X := M2X (repeat 0 n) (repeat 0 n).

Fixpoint list_set (l : list float) (j : nat) (a : float) : list float :=
  match l, j with
  | [], _ => []
  | _ :: t, O => a :: t
  | h :: t, S j' => h :: list_set t j' a
  end.

(** [m(i, j) = a] for [i] in [{0, 1}] and [j] inside the matrix. *)
Definition set_coeff (m : Matrix2X) (i j : nat) (a : float) : Matrix2X :=
  match i with
  | O => M2X (list_set (row0 m) j a) (row1 m)
  | _ => M2X (row0 m) (list_set (row1 m) j a)
  end.

(** [m.col(j) = v]. *)
Definition set_col (m : Matrix2X) (j : nat) (v : Vector2d) : Matrix2X :=
  M2X (list_set (row0 m) j (v2_0 v)) (list_set (row1 m) j (v2_1 v)).

(** [m.row(0) *= a; m.row(1) *= b]. *)
Definition scale_rows2X (m : Matrix2X) (a b : float) : Matrix2X :=
  M2X (map (fun c => c * a) (row0 m)) (map (fun c => c * b) (row1 m)).

Definition scale_rows22 (m : Matrix2d) (a b : float) : Matrix2d :=
  M22 (m00 m * a) (m01 m * a) (m10 m * b) (m11 m * b).

(** The product of a 2x2 matrix and a 2-vector. *)
Definition mul22 (m : Matrix2d) (v : Vector2d) : Vector2d :=
  V2 (m00 m * v2_0 v + m01 m * v2_1 v) (m10 m * v2_0 v + m11 m * v2_1 v).

(** [m.col(j)] for [j] inside the matrix. *)
Definition col (m : Matrix2X) (j : nat) : Vector2d :=
  V2 (nth j (row0 m) 0) (nth j (row1 m) 0).

(** [squaredNorm] and [norm]: the sum of the squared coefficients, in index
    order, and its square root. *)
Definition squaredNorm3 (p : Vector3d) : float :=
  v3_0 p * v3_0 p + v3_1 p * v3_1 p + v3_2 p * v3_2 p.
Definition norm3 (p : Vector3d) : float := PrimFloat.sqrt (squaredNorm3 p).

Definition squaredNorm2 (p : Vector2d) : float :=
  v2_0 p * v2_0 p + v2_1 p * v2_1 p.
Definition norm2 (p : Vector2d) : float := PrimFloat.sqrt (squaredNorm2 p).
End Eigen.
Import Eigen.

(** ** The distortion interface

    Modelled from the spec: [aslam::Distortion] is declared in
    [aslam/cameras/distortion.h], outside the two files followed here; it
    is the capability set of section 6: undistort,
    distort, distortUsingExternalCoefficients (coefficient pointer, point
    pointer, 2x2 Jacobian pointer), distortParameterJacobian (coefficient
    pointer, point, Jacobian pointer) and the parameter accessor.  A pointer
    argument is an [option] that carries the content of the pointee ([None]
    is [nullptr]); the result carries the content after the call.  The two
    functions that receive a coefficient pointer may abort on it. *)

Record Distortion := {
  getParameters : VectorXd;
  undistort : Vector2d -> Vector2d;
  distort : Vector2d -> Vector2d;
  distortUsingExternalCoefficients :
    option VectorXd -> Vector2d -> option Matrix2d ->
    result (Vector2d * option Matrix2d);
  distortParameterJacobian :
    option VectorXd -> Vector2d -> Matrix2X -> result Matrix2X
}.

(** ** The camera *)

Inductive ProjectionResult : Type :=
| KEYPOINT_VISIBLE
| KEYPOINT_OUTSIDE_IMAGE_BOX
| PROJECTION_INVALID.

Record UnifiedProjectionCamera := {
  intrinsics_ : VectorXd;
  image_width_ : Z;
  image_height_ : Z;
  distortion_ : option Distortion
}.

Module Camera.
Local Open Scope float_scope.

Definition kNumOfParams : Z := 5.
Definition parameterCount : Z := kNumOfParams.
Definition kMinimumDepth : float := 1e-10.

Section Accessors.
Variable cam : UnifiedProjectionCamera.

Definition xi : float := coeff (intrinsics_ cam) 0.
Definition fu : float := coeff (intrinsics_ cam) 1.
Definition fv : float := coeff (intrinsics_ cam) 2.
Definition cu : float := coeff (intrinsics_ cam) 3.
Definition cv : float := coeff (intrinsics_ cam) 4.

Definition imageWidth : float := Double.of_uint32 (image_width_ cam).
Definition imageHeight : float := Double.of_uint32 (image_height_ cam).

(** Modelled from the spec: [Camera::isKeypointVisible] belongs to the
    base class ([aslam/cameras/camera.h]), outside the two files followed
    here; section 3 gives the visibility box as [0,width) x [0,height). *)
Definition isKeypointVisible (keypoint : Vector2d) : bool :=
  (v2_0 keypoint >=? 0) && (v2_1 keypoint >=? 0) &&
  (v2_0 keypoint <? imageWidth) && (v2_1 keypoint <? imageHeight).
End Accessors.

Definition fov_parameter (xi : float) : float :=
  if xi <=? 1 then xi else 1 / xi.

Definition intrinsicsValid (intrinsics : VectorXd) : bool :=
  (size intrinsics =? parameterCount)%Z &&
  (coeff intrinsics 0 >=? 0) &&
  (coeff intrinsics 1 >? 0) &&
  (coeff intrinsics 2 >? 0) &&
  (coeff intrinsics 3 >? 0) &&
  (coeff intrinsics 4 >? 0).

(** The two constructors that take an intrinsics vector, with and without
    a distortion: the base class stores the arguments, then
    [CHECK(intrinsicsValid(intrinsics))]. *)
Definition construct (intrinsics : VectorXd) (image_width image_height : Z)
           (distortion : option Distortion) : result UnifiedProjectionCamera :=
  if intrinsicsValid intrinsics
  then Ok {| intrinsics_ := intrinsics;
             image_width_ := image_width;
             image_height_ := image_height;
             distortion_ := distortion |}
  else Fatal "Check failed: intrinsicsValid(intrinsics)".

Definition isUndistortedKeypointValid (rho2_d xi : float) : bool :=
  (xi <=? 1) || (rho2_d <=? 1 / (xi * xi - 1)).

Definition evaluateProjectionResult (cam : UnifiedProjectionCamera)
           (keypoint : Vector2d) (point_3d : Vector3d) : ProjectionResult :=
  let visibility := isKeypointVisible cam keypoint in
  let d2 := squaredNorm3 point_3d in
  let minDepth2 := kMinimumDepth * kMinimumDepth in
  if visibility && (d2 >? minDepth2) then KEYPOINT_VISIBLE
  else if negb visibility && (d2 >? minDepth2) then KEYPOINT_OUTSIDE_IMAGE_BOX
  else if d2 <=? minDepth2 then PROJECTION_INVALID
  else PROJECTION_INVALID.

Definition backProject3 (cam : UnifiedProjectionCamera) (keypoint : Vector2d)
           (out_point_3d : option Vector3d) : result (bool * Vector3d) :=
  match out_point_3d with
  | None => Fatal "'out_point_3d' Must be non NULL"
  | Some _ =>
    let kp := keypoint in
    let kp := V2 ((v2_0 kp - cu cam) / fu cam) (v2_1 kp) in
    let kp := V2 (v2_0 kp) ((v2_1 kp - cv cam) / fv cam) in
    let kp := match distortion_ cam with
              | Some D => undistort D kp
              | None => kp
              end in
    let rho2_d := v2_0 kp * v2_0 kp + v2_1 kp * v2_1 kp in
    let tmpD := Double.std_max (1 + (1 - xi cam * xi cam) * rho2_d) 0 in
    let out := V3 (v2_0 kp) (v2_1 kp)
                  (1 - xi cam * (rho2_d + 1) / (xi cam + PrimFloat.sqrt tmpD)) in
    Ok (isUndistortedKeypointValid rho2_d (xi cam), out)
  end.

Definition isLiftable (cam : UnifiedProjectionCamera) (keypoint : Vector2d) : bool :=
  let y := V2 (1 / fu cam * (v2_0 keypoint - cu cam))
              (1 / fv cam * (v2_1 keypoint - cv cam)) in
  let y := match distortion_ cam with
           | Some D => undistort D y
           | None => y
           end in
  let rho2_d := v2_0 y * v2_0 y + v2_1 y * v2_1 y in
  isUndistortedKeypointValid rho2_d (xi cam).

(** *** project3Functional *)

(** What the call leaves behind its output pointers, with the status it
    returns.  A Jacobian is [None] when its pointer was [nullptr]. *)
Record Projection := {
  status : ProjectionResult;
  keypoint : Vector2d;
  jacobian_point : option Matrix23;
  jacobian_intrinsics : option Matrix2X;
  jacobian_distortion : option Matrix2X
}.

(** Lines 177-197: the Jacobian with respect to the 3d point.  The source
    reuses [rz2] and overwrites entries of [J] in place; each [let] below
    is one assignment, in order. *)
Definition jacobian_point_block (xi fu fv x y z d rz : float)
           (J_distortion : Matrix2d) : Matrix23 :=
  let rz2 := rz * rz / d in
  let J00 := rz2 * (d * z + xi * (y * y + z * z)) in
  let J10 := - rz2 * xi * x * y in
  let J01 := J10 in
  let J11 := rz2 * (d * z + xi * (x * x + z * z)) in
  let rz2 := rz2 * (- xi * z - d) in
  let J02 := x * rz2 in
  let J12 := y * rz2 in
  let rz2 := fu * (J00 * m00 J_distortion + J10 * m01 J_distortion) in
  let J10 := fv * (J00 * m10 J_distortion + J10 * m11 J_distortion) in
  let J00 := rz2 in
  let rz2 := fu * (J01 * m00 J_distortion + J11 * m01 J_distortion) in
  let J11 := fv * (J01 * m10 J_distortion + J11 * m11 J_distortion) in
  let J01 := rz2 in
  let rz2 := fu * (J02 * m00 J_distortion + J12 * m01 J_distortion) in
  let J12 := fv * (J02 * m10 J_distortion + J12 * m11 J_distortion) in
  let J02 := rz2 in
  M23 J00 J01 J02 J10 J11 J12.

(** Lines 200-215: the Jacobian with respect to the intrinsics.
    [out_keypoint] is the normalized keypoint as it stands at that point
    of the function, after the distortion step. *)
Definition jacobian_intrinsics_block (fu fv d rz : float)
           (out_keypoint : Vector2d) (J_distortion : Matrix2d) : Matrix2X :=
  let J := zeros2X (Z.to_nat kNumOfParams) in
  let Jxi := V2 (- v2_0 out_keypoint * d * rz) (- v2_1 out_keypoint * d * rz) in
  let J_distortion := scale_rows22 J_distortion fu fv in
  let J := set_col J 0 (mul22 J_distortion Jxi) in
  let J := set_coeff J 0 1 (v2_0 out_keypoint) in
  let J := set_coeff J 0 3 1 in
  let J := set_coeff J 1 2 (v2_1 out_keypoint) in
  let J := set_coeff J 1 4 1 in
  J.

Definition project3Functional (cam : UnifiedProjectionCamera)
           (point_3d : Vector3d)
           (intrinsics_external : option VectorXd)
           (distortion_coefficients_external : option VectorXd)
           (out_keypoint : option Vector2d)
           (out_jacobian_point : option Matrix23)
           (out_jacobian_intrinsics : option Matrix2X)
           (out_jacobian_distortion : option Matrix2X) : result Projection :=
  match out_keypoint with
  | None => Fatal "'out_keypoint' Must be non NULL"
  | Some _ =>
    (* Determine the parameter source. (if nullptr, use internal) *)
    let intrinsics :=
      match intrinsics_external with
      | None => intrinsics_ cam
      | Some v => v
      end in
    if negb (size intrinsics =? kNumOfParams)%Z
    then Fatal "intrinsics: invalid size!"
    else
      let distortion_coefficients :=
        match distortion_coefficients_external, distortion_ cam with
        | None, Some D => Some (getParameters D)
        | _, _ => distortion_coefficients_external
        end in
      let xi := coeff intrinsics 0 in
      let fu := coeff intrinsics 1 in
      let fv := coeff intrinsics 2 in
      let cu := coeff intrinsics 3 in
      let cv := coeff intrinsics 4 in
      (* Project the point. *)
      let x := v3_0 point_3d in
      let y := v3_1 point_3d in
      let z := v3_2 point_3d in
      let d := norm3 point_3d in
      let rz := 1 / (z + xi * d) in
      (* Check if point will lead to a valid projection *)
      let valid_proj := z >? - (fov_parameter xi * d) in
      if negb valid_proj
      then Ok {| status := PROJECTION_INVALID;
                 keypoint := Zero2;
                 jacobian_point := out_jacobian_point;
                 jacobian_intrinsics := out_jacobian_intrinsics;
                 jacobian_distortion := out_jacobian_distortion |}
      else
        let kp := V2 (x * rz) (y * rz) in
        (* Distort the point and get the Jacobian wrt. keypoint. *)
        let J_distortion := Identity2 in
        ' (kp, J_distortion) <-
          match distortion_ cam, out_jacobian_point with
          | Some D, Some _ =>
            ' (kp', J') <- distortUsingExternalCoefficients
                             D distortion_coefficients kp (Some J_distortion) ;;
            Ok (kp', match J' with Some J => J | None => J_distortion end)
          | Some D, None =>
            ' (kp', _) <- distortUsingExternalCoefficients
                            D distortion_coefficients kp None ;;
            Ok (kp', J_distortion)
          | None, _ => Ok (kp, J_distortion)
          end ;;
        (* Calculate the Jacobian w.r.t to the 3d point, if requested. *)
        let jac_point :=
          match out_jacobian_point with
          | Some _ => Some (jacobian_point_block xi fu fv x y z d rz J_distortion)
          | None => None
          end in
        (* Calculate the Jacobian w.r.t to the intrinsic parameters. *)
        let jac_intrinsics :=
          match out_jacobian_intrinsics with
          | Some _ => Some (jacobian_intrinsics_block fu fv d rz kp J_distortion)
          | None => None
          end in
        (* Calculate the Jacobian w.r.t to the distortion parameters. *)
        jac_distortion <-
          match distortion_ cam, out_jacobian_distortion with
          | Some D, Some J =>
            J' <- distortParameterJacobian
                    D distortion_coefficients_external kp J ;;
            Ok (Some (scale_rows2X J' fu fv))
          | _, _ => Ok out_jacobian_distortion
          end ;;
        (* Normalized image plane to camera plane. *)
        let kp := V2 (fu * v2_0 kp + cu) (v2_1 kp) in
        let kp := V2 (v2_0 kp) (fv * v2_1 kp + cv) in
        Ok {| status := evaluateProjectionResult cam kp point_3d;
              keypoint := kp;
              jacobian_point := jac_point;
              jacobian_intrinsics := jac_intrinsics;
              jacobian_distortion := jac_distortion |}
  end.

(** *** createRandomKeypoint

    The function reads the process-wide generator: [setRandom] fills the
    vector with two doubles and [rand()] returns an integer between [0] and
    [RAND_MAX].  One pass through the loop body consumes one [Draw]; the
    generator is the sequence of draws, and a run reports how many it
    consumed. *)

Record Draw := { rnd_vector : Vector2d; rnd_int : Z }.

Definition RAND_MAX : Z := 2147483647.

(** Lines 288-299: one candidate keypoint, from one draw. *)
Definition candidate (cam : UnifiedProjectionCamera) (r : Draw) : Vector2d :=
  let one_over_xixi_m_1 := 1 / (xi cam * xi cam - 1) in
  let u := rnd_vector r in
  let u := V2 (v2_0 u - 0.5) (v2_1 u - 0.5) in
  let n := norm2 u in
  let u := V2 (v2_0 u / n) (v2_1 u / n) in
  let s := Double.of_uint32 (rnd_int r) / Double.of_uint32 RAND_MAX
           * one_over_xixi_m_1 in
  let u := V2 (v2_0 u * s) (v2_1 u * s) in
  let u := match distortion_ cam with
           | Some D => distort D u
           | None => u
           end in
  let u := V2 (fu cam * v2_0 u + cu cam) (v2_1 u) in
  let u := V2 (v2_0 u) (fv cam * v2_1 u + cv cam) in
  u.

(** The [while] loop, entered with the current [u], the counter
    [max_tries] and the index [k] of the next draw.  [fuel] bounds the
    number of times the loop condition is evaluated. *)
Fixpoint createRandomKeypoint_loop (fuel : nat) (cam : UnifiedProjectionCamera)
         (rng : nat -> Draw) (k : nat) (max_tries : Z) (u : Vector2d)
  : option (Vector2d * nat) :=
  match fuel with
  | O => None
  | S fuel' =>
    if isLiftable cam u && isKeypointVisible cam u
    then Some (u, k)
    else
      let u := candidate cam (rng k) in
      (* Protect against inifinte loops. *)
      let max_tries := (max_tries - 1)%Z in
      if (max_tries <? 1)%Z
      then Some (V2 (cu cam) (cv cam), S k)
      else createRandomKeypoint_loop fuel' cam rng (S k) max_tries u
  end.

Definition createRandomKeypoint_fuel (fuel : nat) (cam : UnifiedProjectionCamera)
           (rng : nat -> Draw) : option (Vector2d * nat) :=
  let ru := imageWidth cam in
  let rv := imageHeight cam in
  let u := V2 (ru + 1) (rv + 1) in
  createRandomKeypoint_loop fuel cam rng 0 10 u.

(** Ten evaluations of the loop condition are all a run can make. *)
Definition createRandomKeypoint := createRandomKeypoint_fuel 10.

(** *** createRandomVisiblePoint

    Lines 317-325, from the keypoint [y] that [createRandomKeypoint]
    returned. *)
Definition createRandomVisiblePoint_from (cam : UnifiedProjectionCamera)
           (depth : float) (y : Vector2d) : result Vector3d :=
  if negb (depth >? 0) then Fatal "Depth needs to be positive!"
  else
    ' (success, point_3d) <- backProject3 cam y (Some (V3 0 0 0)) ;;
    if negb success
    then Fatal "backprojection of createRandomVisiblePoint was unsuccessful!"
    else
      let n := norm3 point_3d in
      let point_3d := V3 (v3_0 point_3d / n) (v3_1 point_3d / n)
                         (v3_2 point_3d / n) in
      Ok (V3 (v3_0 point_3d * depth) (v3_1 point_3d * depth)
             (v3_2 point_3d * depth)).
End Camera.

(** ** The spec's reading of the projection

    Definitions that follow the words of the specification, to be compared
    with the code above. *)

Module Spec.
Local Open Scope float_scope.

(** Step 1: the externally supplied vector if present, else the camera's
    own stored values. *)
Definition active_intrinsics (cam : UnifiedProjectionCamera)
           (intrinsics_external : option VectorXd) : VectorXd :=
  match intrinsics_external with
  | Some v => v
  | None => intrinsics_ cam
  end.

Definition active_distortion_coefficients (cam : UnifiedProjectionCamera)
           (distortion_coefficients_external : option VectorXd)
  : option VectorXd :=
  match distortion_coefficients_external with
  | Some c => Some c
  | None => option_map getParameters (distortion_ cam)
  end.

(** fov(xi) = xi if xi <= 1 else 1/xi. *)
Definition fov (xi : float) : float := if xi <=? 1 then xi else 1 / xi.

(** Step 2: d = |p|, rz = 1 / (z + xi d), (u,v) = (x rz, y rz). *)
Definition normalized (xi : float) (p : Vector3d) : Vector2d :=
  let d := norm3 p in
  let rz := 1 / (v3_2 p + xi * d) in
  V2 (v3_0 p * rz) (v3_1 p * rz).

(** Step 3: the projection is defined only when z > -fov(xi) d. *)
Definition gate (xi : float) (p : Vector3d) : bool :=
  - (fov xi * norm3 p) <? v3_2 p.

(** Step 4: the distortion, if present, applied to (u,v); the Jacobian is
    asked for exactly when the point Jacobian is requested. *)
Definition distorted (cam : UnifiedProjectionCamera)
           (coefficients : option VectorXd) (point_jacobian_requested : bool)
           (uv : Vector2d) : result Vector2d :=
  match distortion_ cam with
  | None => Ok uv
  | Some D =>
    ' (uv', _) <- distortUsingExternalCoefficients D coefficients uv
                    (if point_jacobian_requested then Some Identity2 else None) ;;
    Ok uv'
  end.

(** Step 8: keypoint = (fu u + cu, fv v + cv). *)
Definition affine (intrinsics : VectorXd) (uv : Vector2d) : Vector2d :=
  V2 (coeff intrinsics 1 * v2_0 uv + coeff intrinsics 3)
     (coeff intrinsics 2 * v2_1 uv + coeff intrinsics 4).

(** Section 4.2: the inverse of the affine step. *)
Definition unaffine (cam : UnifiedProjectionCamera) (kp : Vector2d) : Vector2d :=
  V2 ((v2_0 kp - Camera.cu cam) / Camera.fu cam)
     ((v2_1 kp - Camera.cv cam) / Camera.fv cam).

Definition undistorted (cam : UnifiedProjectionCamera) (uv : Vector2d) : Vector2d :=
  match distortion_ cam with
  | Some D => undistort D uv
  | None => uv
  end.

Definition rho2 (uv : Vector2d) : float :=
  v2_0 uv * v2_0 uv + v2_1 uv * v2_1 uv.

(** Section 4.2: t = max(1 + (1 - xi^2) rho2_d, 0) and the bearing vector
    (u, v, 1 - xi (rho2_d + 1) / (xi + sqrt t)). *)
Definition bearing (xi : float) (uv : Vector2d) : Vector3d :=
  let rho2_d := rho2 uv in
  let t := Double.std_max (1 + (1 - xi * xi) * rho2_d) 0 in
  V3 (v2_0 uv) (v2_1 uv) (1 - xi * (rho2_d + 1) / (xi + PrimFloat.sqrt t)).

(** Section 4.6: a random direction on the normalized plane, its radius
    scaled by a random fraction of 1/(xi^2 - 1), then the distortion and
    the affine step. *)
Definition direction (r : Vector2d) : Vector2d :=
  let c := V2 (v2_0 r - 0.5) (v2_1 r - 0.5) in
  V2 (v2_0 c / norm2 c) (v2_1 c / norm2 c).

Definition fraction (n : Z) : float :=
  Double.of_uint32 n / Double.of_uint32 Camera.RAND_MAX.

Definition sample (cam : UnifiedProjectionCamera) (r : Camera.Draw) : Vector2d :=
  let radius := fraction (Camera.rnd_int r)
                * (1 / (Camera.xi cam * Camera.xi cam - 1)) in
  let dir := direction (Camera.rnd_vector r) in
  let uv := V2 (v2_0 dir * radius) (v2_1 dir * radius) in
  let uv := match distortion_ cam with
            | Some D => distort D uv
            | None => uv
            end in
  affine (intrinsics_ cam) uv.

(** Section 4.6 and 8: what a finished run reports, a keypoint [u] and the
    number [k] of draws it consumed: a liftable, visible keypoint (the
    sample of the last draw, if there was one), or the principal point
    after the tenth draw. *)
Definition sampling_outcome (cam : UnifiedProjectionCamera)
           (rng : nat -> Camera.Draw) (u : Vector2d) (k : nat) : Prop :=
  (Camera.isLiftable cam u && Camera.isKeypointVisible cam u = true
   /\ (k < 10)%nat
   /\ (forall j, k = S j -> u = sample cam (rng j)))
  \/
  (k = 10%nat /\ u = V2 (Camera.cu cam) (Camera.cv cam)).

(** Section 4.1, step 6: column 0 of the intrinsics Jacobian is J_d, its
    rows scaled by fu and fv, applied to (-u d rz, -v d rz). *)
Definition xi_column (fu fv d rz : float) (J_d : Matrix2d) (uv : Vector2d)
  : Vector2d :=
  mul22 (scale_rows22 J_d fu fv) (V2 (- v2_0 uv * d * rz) (- v2_1 uv * d * rz)).
End Spec.

(** ** A concrete distortion and concrete cameras

    A one-coefficient radial distortion, (u,v) -> (1 + k r^2) (u,v), as an
    implementation of the interface.  [distort] and [undistort] use the
    stored coefficient; the two functions that receive a coefficient pointer
    read the vector behind it and check its size. *)

Module Radial.
Local Open Scope float_scope.

Definition factor (k : float) (p : Vector2d) : float :=
  1 + k * (v2_0 p * v2_0 p + v2_1 p * v2_1 p).

Definition apply (k : float) (p : Vector2d) : Vector2d :=
  V2 (v2_0 p * factor k p) (v2_1 p * factor k p).

Definition jacobian (k : float) (p : Vector2d) : Matrix2d :=
  let u := v2_0 p in
  let v := v2_1 p in
  M22 (factor k p + 2 * k * u * u) (2 * k * u * v)
      (2 * k * u * v) (factor k p + 2 * k * v * v).

(** Fixed-point iteration for the inverse. *)
Fixpoint invert (n : nat) (k : float) (y p : Vector2d) : Vector2d :=
  match n with
  | O => p
  | S n' =>
    invert n' k y (V2 (v2_0 y / factor k p) (v2_1 y / factor k p))
  end.

Definition make (k : float) : Distortion := {|
  getParameters := [k];
  undistort := fun y => invert 8 k y y;
  distort := apply k;
  distortUsingExternalCoefficients := fun coeffs p J =>
    match coeffs with
    | None => Fatal "dist_coeffs is NULL"
    | Some [k'] =>
      Ok (apply k' p,
          match J with Some _ => Some (jacobian k' p) | None => None end)
    | Some _ => Fatal "dist_coeffs: invalid size!"
    end;
  distortParameterJacobian := fun coeffs p _ =>
    match coeffs with
    | None => Fatal "dist_coeffs is NULL"
    | Some [_] =>
      let r2 := v2_0 p * v2_0 p + v2_1 p * v2_1 p in
      Ok (M2X [v2_0 p * r2] [v2_1 p * r2])
    | Some _ => Fatal "dist_coeffs: invalid size!"
    end
|}.
End Radial.

Module Examples.
Local Open Scope float_scope.

(** [createTestCamera()]: xi = 0.9, f = 400, c = (320, 240), 640 x 480. *)
Definition test_camera : UnifiedProjectionCamera :=
  {| intrinsics_ := [0.9; 400; 400; 320; 240];
     image_width_ := 640; image_height_ := 480;
     distortion_ := None |}.

(** The same sensor behind a mirror with xi = 1.8. *)
Definition mirror_camera : UnifiedProjectionCamera :=
  {| intrinsics_ := [1.8; 400; 400; 320; 240];
     image_width_ := 640; image_height_ := 480;
     distortion_ := None |}.

(** The test camera with a radial distortion, k = 0.1. *)
Definition radial_camera : UnifiedProjectionCamera :=
  {| intrinsics_ := [0.9; 400; 400; 320; 240];
     image_width_ := 640; image_height_ := 480;
     distortion_ := Some (Radial.make 0.1) |}.

(** Two points whose squared coordinates add up exactly. *)
Definition in_front : Vector3d := V3 0.25 0.5 1.
Definition behind : Vector3d := V3 0.25 0 (-1).

(** A keypoint on the middle row of the image, next to the edge of the
    liftable disk of [mirror_camera]. *)
Definition edge_keypoint : Vector2d := V2 0x1.a5e8fa000e577p+5 240.

(** The mirror camera with focal length 380, and a keypoint next to the
    edge of its liftable disk. *)
Definition mirror_camera_380 : UnifiedProjectionCamera :=
  {| intrinsics_ := [1.8; 380; 380; 320; 240];
     image_width_ := 640; image_height_ := 480;
     distortion_ := None |}.

Definition edge_keypoint_380 : Vector2d := V2 0x1.0868438cd39cbp+6 240.

Definition constant_rng (r : Vector2d) (n : Z) : nat -> Camera.Draw :=
  fun _ => {| Camera.rnd_vector := r; Camera.rnd_int := n |}.

(** The camera with another image size. *)
Definition with_image_size (cam : UnifiedProjectionCamera) (w h : Z)
  : UnifiedProjectionCamera :=
  {| intrinsics_ := intrinsics_ cam;
     image_width_ := w; image_height_ := h;
     distortion_ := distortion_ cam |}.
End Examples.

(** ** The rest of the camera's interface

    The constructors from five scalars, the comparison operator and
    [createRandomVisiblePoint]. *)

Module CameraInterface.
Import Camera.
Local Open Scope float_scope.

(** Lines 51-66: the constructors from scalars delegate to the ones from a
    vector. *)
Definition construct_scalars (xi focallength_cols focallength_rows
                              imagecenter_cols imagecenter_rows : float)
           (image_width image_height : Z) (distortion : option Distortion)
  : result UnifiedProjectionCamera :=
  construct [xi; focallength_cols; focallength_rows;
             imagecenter_cols; imagecenter_rows]
            image_width image_height distortion.

(** Lines 68-89: [operator==].  [other] is what the dynamic cast of the
    argument to a unified projection camera yields, [None] for a camera of
    another model.  The comparison of the base class and the comparison of
    two distortion objects live in [aslam/cameras/camera.h] and
    [aslam/cameras/distortion.h], outside the two files followed here: they
    are the parameters [base_equal] and [distortion_equal]. *)
Section Equality.
Variable base_equal :
  UnifiedProjectionCamera -> UnifiedProjectionCamera -> bool.
Variable distortion_equal : Distortion -> Distortion -> bool.

Definition operator_eq (this : UnifiedProjectionCamera)
           (other : option UnifiedProjectionCamera) : bool :=
  match other with
  | None => false
  | Some rhs =>
    (* Verify that the base members are equal. *)
    if negb (base_equal this rhs) then false
    (* Check if only one camera defines a distortion. *)
    else if (non_null (distortion_ this) && negb (non_null (distortion_ rhs)))
            || (negb (non_null (distortion_ this)) && non_null (distortion_ rhs))
         then false
         else
           (* Compare the distortion model (if distortion is set for both). *)
           match distortion_ this, distortion_ rhs with
           | Some a, Some b =>
             if negb (distortion_equal a b) then false else true
           | _, _ => true
           end
  end.
End Equality.

(** Lines 313-326: [createRandomVisiblePoint].  The depth is checked before
    the generator is read; the result carries the number of draws
    consumed.  [None] stands for a keypoint loop that ran out of fuel. *)
Definition createRandomVisiblePoint (cam : UnifiedProjectionCamera)
           (depth : float) (rng : nat -> Draw)
  : option (result (Vector3d * nat)) :=
  if negb (depth >? 0) then Some (Fatal "Depth needs to be positive!")
  else
    match createRandomKeypoint cam rng with
    | None => None
    | Some (y, k) =>
      Some (point_3d <- createRandomVisiblePoint_from cam depth y ;;
            Ok (point_3d, k))
    end.
End CameraInterface.

(** * Properties *)

(** ** Comparisons of doubles *)

Module DoubleFacts.
Local Open Scope float_scope.

Lemma SFcompare_antisym (a b : spec_float) :
  SFcompare b a = option_map CompOpp (SFcompare a b).
Proof.
  destruct a as [sa|sa| |sa ma ea], b as [sb|sb| |sb mb eb]; simpl;
    try reflexivity;
    try (destruct sa; reflexivity); try (destruct sb; reflexivity);
    try (destruct sa, sb; reflexivity).
  destruct sa, sb; simpl; try reflexivity;
    rewrite (Z.compare_antisym ea eb);
    destruct (ea ?= eb)%Z; simpl; try reflexivity;
    pose proof (Pos.compare_cont_antisym ma mb Eq) as H; simpl in H;
    rewrite <- H; destruct (Pos.compare_cont Eq ma mb); reflexivity.
Qed.

(** [x <= y] excludes [x > y]. *)
Lemma leb_not_gtb (x y : float) : (x <=? y) = true -> (x >? y) = false.
Proof.
  unfold Double.gtb.
  rewrite FloatAxioms.leb_spec, FloatAxioms.ltb_spec. unfold SFleb, SFltb.
  rewrite (SFcompare_antisym (Prim2SF x) (Prim2SF y)).
  destruct (SFcompare (Prim2SF x) (Prim2SF y)) as [[| |]|]; simpl; congruence.
Qed.

(** [x < y] excludes [x >= y]. *)
Lemma ltb_not_geb (x y : float) : (x <? y) = true -> (x >=? y) = false.
Proof.
  unfold Double.geb.
  rewrite FloatAxioms.leb_spec, FloatAxioms.ltb_spec. unfold SFleb, SFltb.
  rewrite (SFcompare_antisym (Prim2SF x) (Prim2SF y)).
  destruct (SFcompare (Prim2SF x) (Prim2SF y)) as [[| |]|]; simpl; congruence.
Qed.

(** [x < y] implies [x <= y]. *)
Lemma ltb_leb (x y : float) : (x <? y) = true -> (x <=? y) = true.
Proof.
  rewrite FloatAxioms.leb_spec, FloatAxioms.ltb_spec. unfold SFleb, SFltb.
  destruct (SFcompare (Prim2SF x) (Prim2SF y)) as [[| |]|]; simpl; congruence.
Qed.
End DoubleFacts.

Module CameraFacts.
Import Camera.
Local Open Scope float_scope.

(** *** Classification *)

(** C3. [evaluateProjectionResult] is the decision table over the two
    predicates "the keypoint is inside the image box" and
    "|p|^2 > minDepth^2" with minDepth = 1e-10: it answers
    [KEYPOINT_VISIBLE] exactly when both hold, [KEYPOINT_OUTSIDE_IMAGE_BOX]
    exactly when the keypoint is outside and the point is deep enough, and
    [PROJECTION_INVALID] whenever |p|^2 <= minDepth^2, wherever the
    keypoint is. *)
Theorem evaluateProjectionResult_table
        (cam : UnifiedProjectionCamera) (kp : Vector2d) (p : Vector3d) :
  let minDepth2 := 1e-10 * 1e-10 in
  (evaluateProjectionResult cam kp p = KEYPOINT_VISIBLE <->
     isKeypointVisible cam kp = true /\ (squaredNorm3 p >? minDepth2) = true)
  /\
  (evaluateProjectionResult cam kp p = KEYPOINT_OUTSIDE_IMAGE_BOX <->
     isKeypointVisible cam kp = false /\ (squaredNorm3 p >? minDepth2) = true)
  /\
  ((squaredNorm3 p <=? minDepth2) = true ->
     evaluateProjectionResult cam kp p = PROJECTION_INVALID).
Proof.
  intros minDepth2. unfold evaluateProjectionResult.
  change (kMinimumDepth * kMinimumDepth) with minDepth2.
  repeat split.
  - destruct (isKeypointVisible cam kp), (squaredNorm3 p >? minDepth2);
      simpl; try discriminate; try reflexivity;
      destruct (squaredNorm3 p <=? minDepth2); discriminate.
  - destruct (isKeypointVisible cam kp), (squaredNorm3 p >? minDepth2);
      simpl; try discriminate; try reflexivity;
      destruct (squaredNorm3 p <=? minDepth2); discriminate.
  - intros [-> ->]. reflexivity.
  - destruct (isKeypointVisible cam kp), (squaredNorm3 p >? minDepth2);
      simpl; try discriminate; try reflexivity;
      destruct (squaredNorm3 p <=? minDepth2); discriminate.
  - destruct (isKeypointVisible cam kp), (squaredNorm3 p >? minDepth2);
      simpl; try discriminate; try reflexivity;
      destruct (squaredNorm3 p <=? minDepth2); discriminate.
  - intros [-> ->]. reflexivity.
  - intros Hle. rewrite (DoubleFacts.leb_not_gtb _ _ Hle), Hle.
    rewrite !andb_false_r. reflexivity.
Qed.

(** The rows of the table on the 640 x 480 test camera. *)
Example classification_visible :
  evaluateProjectionResult Examples.test_camera (V2 320 240) (V3 0 0 1)
  = KEYPOINT_VISIBLE.
Proof. vm_compute. reflexivity. Qed.

Example classification_outside :
  evaluateProjectionResult Examples.test_camera (V2 (-10) 240) (V3 0 0 1)
  = KEYPOINT_OUTSIDE_IMAGE_BOX.
Proof. vm_compute. reflexivity. Qed.

Example classification_too_close :
  evaluateProjectionResult Examples.test_camera (V2 320 240) (V3 0 0 1e-11)
  = PROJECTION_INVALID
  /\ evaluateProjectionResult Examples.test_camera (V2 (-10) 240) (V3 0 0 1e-11)
     = PROJECTION_INVALID.
Proof. split; vm_compute; reflexivity. Qed.

(** *** The liftable disk *)

(** C4. [isUndistortedKeypointValid rho2_d xi] is true exactly when
    xi <= 1 or rho2_d <= 1/(xi^2 - 1): for xi <= 1 it is true for every
    rho2_d, and for xi > 1 it is true exactly on the disk
    rho2_d <= 1/(xi^2 - 1). *)
Theorem isUndistortedKeypointValid_iff (rho2_d xi : float) :
  (isUndistortedKeypointValid rho2_d xi = true <->
     (xi <=? 1) = true \/ (rho2_d <=? 1 / (xi * xi - 1)) = true)
  /\
  ((xi <=? 1) = true -> isUndistortedKeypointValid rho2_d xi = true)
  /\
  ((xi >? 1) = true ->
     (isUndistortedKeypointValid rho2_d xi = true <->
        (rho2_d <=? 1 / (xi * xi - 1)) = true)).
Proof.
  unfold isUndistortedKeypointValid. split; [|split].
  - apply orb_true_iff.
  - intros ->. reflexivity.
  - intros Hgt. unfold Double.gtb in Hgt.
    apply DoubleFacts.ltb_not_geb in Hgt. unfold Double.geb in Hgt.
    rewrite Hgt. simpl. reflexivity.
Qed.

(** The edge of the disk for xi = 2: 1/(xi^2 - 1) is 1/3. *)
Example disk_edge :
  isUndistortedKeypointValid 0.3333333333333333 2 = true
  /\ isUndistortedKeypointValid 0.33333333333333337 2 = false
  /\ isUndistortedKeypointValid 1e300 0.9 = true.
Proof. repeat split; vm_compute; reflexivity. Qed.

(** *** Construction *)

Lemma size_5 (v : VectorXd) :
  (size v =? parameterCount)%Z = true <-> List.length v = 5%nat.
Proof.
  unfold size, parameterCount, kNumOfParams. rewrite Z.eqb_eq. lia.
Qed.

Lemma intrinsicsValid_iff (v : VectorXd) :
  intrinsicsValid v = true <->
  List.length v = 5%nat /\
  (coeff v 0 >=? 0) = true /\ (coeff v 1 >? 0) = true /\
  (coeff v 2 >? 0) = true /\ (coeff v 3 >? 0) = true /\
  (coeff v 4 >? 0) = true.
Proof.
  unfold intrinsicsValid. rewrite !andb_true_iff, size_5. tauto.
Qed.

(** C8. Constructing a camera from an intrinsics vector v succeeds
    exactly when v has 5 elements and v[0] >= 0, v[1] > 0, v[2] > 0,
    v[3] > 0, v[4] > 0; every other vector (among them one with xi < 0,
    one with fu <= 0, one with 4 elements) is rejected by a fatal check,
    and a constructed camera stores v, so its xi, fu, fv, cu, cv satisfy
    the same inequalities. *)
Theorem construct_validates_intrinsics
        (v : VectorXd) (w h : Z) (dist : option Distortion) :
  let valid :=
      List.length v = 5%nat /\
      (coeff v 0 >=? 0) = true /\ (coeff v 1 >? 0) = true /\
      (coeff v 2 >? 0) = true /\ (coeff v 3 >? 0) = true /\
      (coeff v 4 >? 0) = true in
  ((exists cam, construct v w h dist = Ok cam) <-> valid)
  /\
  (~ valid -> exists msg, construct v w h dist = Fatal msg)
  /\
  ((coeff v 0 <? 0) = true \/ (coeff v 1 <=? 0) = true \/ List.length v = 4%nat ->
     exists msg, construct v w h dist = Fatal msg)
  /\
  (forall cam, construct v w h dist = Ok cam ->
     intrinsics_ cam = v /\ size (intrinsics_ cam) = 5%Z /\
     (xi cam >=? 0) = true /\ (fu cam >? 0) = true /\ (fv cam >? 0) = true /\
     (cu cam >? 0) = true /\ (cv cam >? 0) = true).
Proof.
  intros valid. unfold construct.
  pose proof (intrinsicsValid_iff v) as Hiff. fold valid in Hiff.
  destruct (intrinsicsValid v) eqn:Hv.
  - assert (Hval : valid) by (apply Hiff; reflexivity).
    split; [|split; [|split]].
    + split; [intros _; exact Hval | intros _; eexists; reflexivity].
    + intros Hn. contradiction.
    + destruct Hval as (Hlen & H0 & H1 & _).
      intros [Hneg | [Hle | Hfour]].
      * apply DoubleFacts.ltb_not_geb in Hneg. congruence.
      * apply DoubleFacts.leb_not_gtb in Hle. congruence.
      * congruence.
    + intros cam [= <-]. unfold xi, fu, fv, cu, cv, size. simpl.
      destruct Hval as (Hlen & H0 & H1 & H2 & H3 & H4).
      rewrite Hlen. repeat split; assumption.
  - assert (Hval : ~ valid) by (intros Hval; apply Hiff in Hval; discriminate).
    split; [|split; [|split]].
    + split; [intros [cam [=]] | intros Hval'; contradiction].
    + intros _. eexists; reflexivity.
    + intros _. eexists; reflexivity.
    + intros cam [=].
Qed.
End CameraFacts.

Module ProjectionFacts.
Import Camera Examples.
Local Open Scope float_scope.

Lemma fov_parameter_spec (xi : float) : fov_parameter xi = Spec.fov xi.
Proof. reflexivity. Qed.

Lemma size_check (v : VectorXd) :
  size v = 5%Z -> negb (size v =? kNumOfParams)%Z = false.
Proof. intros ->. reflexivity. Qed.

(** The two fatal checks at the top of the function. *)
Lemma project3Functional_null_keypoint
      (cam : UnifiedProjectionCamera) (p : Vector3d)
      (ie de : option VectorXd) (jp : option Matrix23) (ji jd : option Matrix2X) :
  is_ok (project3Functional cam p ie de None jp ji jd) = false.
Proof. reflexivity. Qed.

Lemma project3Functional_wrong_size
      (cam : UnifiedProjectionCamera) (p : Vector3d)
      (ie de : option VectorXd) (out : option Vector2d)
      (jp : option Matrix23) (ji jd : option Matrix2X) :
  size (Spec.active_intrinsics cam ie) <> 5%Z ->
  is_ok (project3Functional cam p ie de out jp ji jd) = false.
Proof.
  intros Hsize. unfold project3Functional.
  destruct out; [|reflexivity].
  replace (match ie with
           | Some v => v
           | None => intrinsics_ cam
           end) with (Spec.active_intrinsics cam ie)
    by (destruct ie; reflexivity).
  apply Z.eqb_neq in Hsize. unfold kNumOfParams. rewrite Hsize. reflexivity.
Qed.

(** *** The validity gate *)

(** C2. For a point p = (x,y,z) with z <= -fov(xi) d, where d = |p| and
    fov(xi) = xi if xi <= 1 else 1/xi, [project3Functional] sets the
    keypoint to (0,0), returns [PROJECTION_INVALID] and leaves the three
    Jacobian outputs as they were.  (xi is read from the active
    intrinsics, which have 5 entries.) *)
Theorem project3Functional_invalid
        (cam : UnifiedProjectionCamera) (p : Vector3d)
        (intrinsics_external distortion_coefficients_external : option VectorXd)
        (kp0 : Vector2d) (jp : option Matrix23) (ji jd : option Matrix2X) :
  let intrinsics := Spec.active_intrinsics cam intrinsics_external in
  let xi := coeff intrinsics 0 in
  size intrinsics = 5%Z ->
  (v3_2 p <=? - (Spec.fov xi * norm3 p)) = true ->
  project3Functional cam p intrinsics_external distortion_coefficients_external
                     (Some kp0) jp ji jd
  = Ok {| status := PROJECTION_INVALID;
          keypoint := V2 0 0;
          jacobian_point := jp;
          jacobian_intrinsics := ji;
          jacobian_distortion := jd |}.
Proof.
  intros intrinsics xi Hsize Hle.
  apply DoubleFacts.leb_not_gtb in Hle.
  unfold project3Functional.
  replace (match intrinsics_external with
           | Some v => v
           | None => intrinsics_ cam
           end) with intrinsics by (destruct intrinsics_external; reflexivity).
  rewrite (size_check _ Hsize).
  fold xi. rewrite fov_parameter_spec, Hle. reflexivity.
Qed.

Lemma project3Functional_invalid_witness :
  project3Functional test_camera behind None None (Some (V2 3 4))
                     (Some (M23 1 2 3 4 5 6)) (Some (zeros2X 2)) None
  = Ok {| status := PROJECTION_INVALID;
          keypoint := V2 0 0;
          jacobian_point := Some (M23 1 2 3 4 5 6);
          jacobian_intrinsics := Some (zeros2X 2);
          jacobian_distortion := None |}.
Proof.
  apply (project3Functional_invalid test_camera behind None None (V2 3 4)
           (Some (M23 1 2 3 4 5 6)) (Some (zeros2X 2)) None).
  - reflexivity.
  - vm_compute. reflexivity.
Defined.

(** *** The keypoint *)

Lemma gate_valid_proj (xi : float) (p : Vector3d) :
  Spec.gate xi p = true ->
  negb (v3_2 p >? - (fov_parameter xi * norm3 p)) = false.
Proof.
  unfold Spec.gate, Spec.fov, Double.gtb, fov_parameter.
  intros ->. reflexivity.
Qed.

(** C1. For a point p = (x,y,z) that passes the validity gate,
    [project3Functional] returns the keypoint (fu u + cu, fv v + cv),
    where (u,v) is (x rz, y rz) with d = |p| and rz = 1/(z + xi d), passed
    through the distortion when the camera has one, and xi, fu, fv, cu, cv
    are the active intrinsics.  (The active intrinsics have 5 entries and
    the distortion model, where it is called, does not abort.) *)
Theorem project3Functional_keypoint
        (cam : UnifiedProjectionCamera) (p : Vector3d)
        (intrinsics_external distortion_coefficients_external : option VectorXd)
        (kp0 : Vector2d) (jp : option Matrix23) (ji jd : option Matrix2X)
        (uv : Vector2d) :
  let intrinsics := Spec.active_intrinsics cam intrinsics_external in
  let coefficients :=
      Spec.active_distortion_coefficients cam distortion_coefficients_external in
  let xi := coeff intrinsics 0 in
  size intrinsics = 5%Z ->
  Spec.gate xi p = true ->
  Spec.distorted cam coefficients (non_null jp) (Spec.normalized xi p) = Ok uv ->
  match distortion_ cam, jd with
  | Some D, Some J =>
    is_ok (distortParameterJacobian D distortion_coefficients_external uv J) = true
  | _, _ => True
  end ->
  exists r,
    project3Functional cam p intrinsics_external distortion_coefficients_external
                       (Some kp0) jp ji jd = Ok r
    /\ keypoint r = Spec.affine intrinsics uv.
Proof.
  intros intrinsics coefficients xi Hsize Hgate Hdist Hjd.
  unfold project3Functional.
  replace (match intrinsics_external with
           | Some v => v
           | None => intrinsics_ cam
           end) with intrinsics by (destruct intrinsics_external; reflexivity).
  rewrite (size_check _ Hsize). fold xi.
  rewrite (gate_valid_proj _ _ Hgate).
  change (V2 (v3_0 p * (1 / (v3_2 p + xi * norm3 p)))
             (v3_1 p * (1 / (v3_2 p + xi * norm3 p))))
    with (Spec.normalized xi p).
  unfold Spec.distorted in Hdist. subst coefficients.
  unfold Spec.active_distortion_coefficients in Hdist.
  destruct (distortion_ cam) as [D|].
  - assert (Hcoef :
              match distortion_coefficients_external with
              | Some _ => distortion_coefficients_external
              | None => Some (getParameters D)
              end
              = match distortion_coefficients_external with
                | Some c => Some c
                | None => option_map getParameters (Some D)
                end)
      by (destruct distortion_coefficients_external; reflexivity).
    rewrite Hcoef.
    destruct jp as [jp0|]; simpl in Hdist |- *;
      destruct (distortUsingExternalCoefficients D _ (Spec.normalized xi p) _)
        as [[uv' J']|msg]; simpl in Hdist |- *; try discriminate;
      injection Hdist as ->;
      (destruct jd as [J|]; simpl;
       [ destruct (distortParameterJacobian D _ uv J); simpl in Hjd |- *;
         [ eexists; split; reflexivity | discriminate ]
       | eexists; split; reflexivity ]).
  - injection Hdist as <-.
    destruct jp; simpl; destruct jd; eexists; split; reflexivity.
Qed.

Lemma project3Functional_keypoint_witness :
  exists r,
    project3Functional test_camera in_front None None (Some Zero2)
                       None None None = Ok r
    /\ keypoint r
       = Spec.affine (intrinsics_ test_camera)
                     (Spec.normalized 0.9 in_front).
Proof.
  apply (project3Functional_keypoint test_camera in_front None None Zero2
           None None None (Spec.normalized 0.9 in_front)).
  - reflexivity.
  - vm_compute. reflexivity.
  - reflexivity.
  - exact I.
Defined.

(** *** The Jacobian with respect to the intrinsics *)

Lemma distinct_by {A : Type} (f : A -> bool) (x y : A) :
  f x = true -> f y = false -> x <> y.
Proof. intros Hx Hy ->. congruence. Qed.

(** The 2x5 matrix that lines 200-215 build from the matrix [J] held in
    [J_distortion] and the keypoint [uv] held in [out_keypoint]: column 0
    is [J], rows scaled by fu and fv, applied to (-u d rz, -v d rz), and
    columns 1-4 hold u, 1, v, 1 at (0,1), (0,3), (1,2), (1,4). *)
Lemma jacobian_intrinsics_block_entries
      (fu fv d rz : float) (uv : Vector2d) (J : Matrix2d) :
  jacobian_intrinsics_block fu fv d rz uv J
  = M2X [v2_0 (Spec.xi_column fu fv d rz J uv); v2_0 uv; 0; 1; 0]
        [v2_1 (Spec.xi_column fu fv d rz J uv); 0; v2_1 uv; 0; 1].
Proof. reflexivity. Qed.

(** The matrix that [J_distortion] holds when the intrinsics Jacobian is
    computed: the distortion's Jacobian only if the camera has a distortion
    and the point Jacobian was requested as well, the identity otherwise. *)
Lemma project3Functional_jacobian_intrinsics
      (cam : UnifiedProjectionCamera) (p : Vector3d)
      (intrinsics_external distortion_coefficients_external : option VectorXd)
      (kp0 : Vector2d) (jp : option Matrix23) (ji0 : Matrix2X)
      (jd : option Matrix2X) (r : Projection) :
  let intrinsics := Spec.active_intrinsics cam intrinsics_external in
  let coefficients :=
      Spec.active_distortion_coefficients cam distortion_coefficients_external in
  let xi := coeff intrinsics 0 in
  let fu := coeff intrinsics 1 in
  let fv := coeff intrinsics 2 in
  let d := norm3 p in
  let rz := 1 / (v3_2 p + xi * d) in
  size intrinsics = 5%Z ->
  Spec.gate xi p = true ->
  project3Functional cam p intrinsics_external distortion_coefficients_external
                     (Some kp0) jp (Some ji0) jd = Ok r ->
  exists uv J,
    match distortion_ cam, jp with
    | Some D, Some _ =>
      exists J', distortUsingExternalCoefficients
                   D coefficients (Spec.normalized xi p) (Some Identity2)
                 = Ok (uv, J')
                 /\ J = match J' with Some J'' => J'' | None => Identity2 end
    | Some D, None =>
      exists J', distortUsingExternalCoefficients
                   D coefficients (Spec.normalized xi p) None
                 = Ok (uv, J')
                 /\ J = Identity2
    | None, _ => uv = Spec.normalized xi p /\ J = Identity2
    end
    /\ jacobian_intrinsics r
       = Some (M2X [v2_0 (Spec.xi_column fu fv d rz J uv); v2_0 uv; 0; 1; 0]
                   [v2_1 (Spec.xi_column fu fv d rz J uv); 0; v2_1 uv; 0; 1]).
Proof.
  intros intrinsics coefficients xi fu fv d rz Hsize Hgate.
  unfold project3Functional.
  replace (match intrinsics_external with
           | Some v => v
           | None => intrinsics_ cam
           end) with intrinsics by (destruct intrinsics_external; reflexivity).
  rewrite (size_check _ Hsize). fold xi fu fv.
  rewrite (gate_valid_proj _ _ Hgate).
  change (V2 (v3_0 p * (1 / (v3_2 p + xi * norm3 p)))
             (v3_1 p * (1 / (v3_2 p + xi * norm3 p))))
    with (Spec.normalized xi p).
  fold d. fold rz.
  subst coefficients. unfold Spec.active_distortion_coefficients.
  destruct (distortion_ cam) as [D|].
  - replace (match distortion_coefficients_external with
             | Some _ => distortion_coefficients_external
             | None => Some (getParameters D)
             end)
      with (match distortion_coefficients_external with
            | Some c => Some c
            | None => option_map getParameters (Some D)
            end)
      by (destruct distortion_coefficients_external; reflexivity).
    destruct jp as [jp0|]; simpl;
      destruct (distortUsingExternalCoefficients D _ (Spec.normalized xi p) _)
        as [[uv' J']|msg]; simpl; try discriminate;
      (destruct jd as [J|]; simpl;
       [ destruct (distortParameterJacobian D _ uv' J); simpl;
         try discriminate | ]);
      intros [= <-]; simpl;
      eexists; eexists; (split; [eexists; split; reflexivity | reflexivity]).
  - destruct jp; simpl; destruct jd; intros [= <-]; simpl;
      eexists; eexists; (split; [split; reflexivity | reflexivity]).
Qed.

(** C6 on the radial camera.  The intrinsics Jacobian is requested for the
    point (0.25, 0.5, 1), which passes the gate.  With the point Jacobian
    requested as well, column 0 is J_d, rows scaled by fu and fv, applied to
    (-u d rz, -v d rz), where J_d is the Jacobian the distortion reports.
    Without the point Jacobian, the distortion is called with a null
    Jacobian pointer, and column 0 is computed with the identity in place
    of J_d: the two columns differ. *)
Theorem intrinsics_jacobian_without_point_jacobian :
  let cam := radial_camera in
  let D := Radial.make 0.1 in
  let xi := 0.9 in
  let fu := 400 in
  let fv := 400 in
  let d := norm3 in_front in
  let rz := 1 / (v3_2 in_front + xi * d) in
  exists uv J_d r_with r_without,
    distortUsingExternalCoefficients
      D (Some (getParameters D)) (Spec.normalized xi in_front) (Some Identity2)
    = Ok (uv, Some J_d)
    /\ project3Functional cam in_front None None (Some Zero2)
                          (Some (M23 0 0 0 0 0 0)) (Some (zeros2X 0)) None
       = Ok r_with
    /\ option_map (fun J => col J 0) (jacobian_intrinsics r_with)
       = Some (Spec.xi_column fu fv d rz J_d uv)
    /\ project3Functional cam in_front None None (Some Zero2)
                          None (Some (zeros2X 0)) None
       = Ok r_without
    /\ option_map (fun J => col J 0) (jacobian_intrinsics r_without)
       = Some (Spec.xi_column fu fv d rz Identity2 uv)
    /\ Spec.xi_column fu fv d rz Identity2 uv
       = V2 (-27.981647546818262) (-55.963295093636525)
    /\ Spec.xi_column fu fv d rz J_d uv
       = V2 (-28.617550291362377) (-57.235100582724762)
    /\ Spec.xi_column fu fv d rz Identity2 uv
       <> Spec.xi_column fu fv d rz J_d uv.
Proof.
  intros cam D xi fu fv d rz.
  eexists. eexists. eexists. eexists.
  split; [vm_compute; reflexivity|].
  split; [vm_compute; reflexivity|].
  split; [vm_compute; reflexivity|].
  split; [vm_compute; reflexivity|].
  split; [vm_compute; reflexivity|].
  split; [vm_compute; reflexivity|].
  split; [vm_compute; reflexivity|].
  apply (distinct_by (fun c => -28.3 <? v2_0 c)); vm_compute; reflexivity.
Qed.

(** *** The Jacobian with respect to the distortion coefficients *)

(** The coefficient pointer that reaches [distortParameterJacobian] is
    [distortion_coefficients_external] as the caller passed it, not the
    vector resolved at the top of the function. *)
Lemma project3Functional_jacobian_distortion
      (cam : UnifiedProjectionCamera) (D : Distortion) (p : Vector3d)
      (intrinsics_external distortion_coefficients_external : option VectorXd)
      (kp0 : Vector2d) (jp : option Matrix23) (ji : option Matrix2X)
      (jd0 : Matrix2X) (r : Projection) :
  let intrinsics := Spec.active_intrinsics cam intrinsics_external in
  let coefficients :=
      Spec.active_distortion_coefficients cam distortion_coefficients_external in
  let xi := coeff intrinsics 0 in
  distortion_ cam = Some D ->
  size intrinsics = 5%Z ->
  Spec.gate xi p = true ->
  project3Functional cam p intrinsics_external distortion_coefficients_external
                     (Some kp0) jp ji (Some jd0) = Ok r ->
  exists uv J,
    Spec.distorted cam coefficients (non_null jp) (Spec.normalized xi p) = Ok uv
    /\ distortParameterJacobian D distortion_coefficients_external uv jd0 = Ok J
    /\ jacobian_distortion r
       = Some (scale_rows2X J (coeff intrinsics 1) (coeff intrinsics 2)).
Proof.
  intros intrinsics coefficients xi HD Hsize Hgate.
  unfold project3Functional.
  replace (match intrinsics_external with
           | Some v => v
           | None => intrinsics_ cam
           end) with intrinsics by (destruct intrinsics_external; reflexivity).
  rewrite (size_check _ Hsize). fold xi.
  rewrite (gate_valid_proj _ _ Hgate).
  change (V2 (v3_0 p * (1 / (v3_2 p + xi * norm3 p)))
             (v3_1 p * (1 / (v3_2 p + xi * norm3 p))))
    with (Spec.normalized xi p).
  subst coefficients.
  unfold Spec.distorted, Spec.active_distortion_coefficients.
  rewrite HD.
  replace (match distortion_coefficients_external with
           | Some _ => distortion_coefficients_external
           | None => Some (getParameters D)
           end)
    with (match distortion_coefficients_external with
          | Some c => Some c
          | None => option_map getParameters (Some D)
          end)
    by (destruct distortion_coefficients_external; reflexivity).
  destruct jp as [jp0|]; simpl;
    destruct (distortUsingExternalCoefficients D _ (Spec.normalized xi p) _)
      as [[uv' J']|msg]; simpl; try discriminate;
    destruct (distortParameterJacobian D _ uv' jd0) as [J|msg] eqn:HJ; simpl;
    try discriminate;
    intros [= <-]; simpl; exists uv', J; repeat split; assumption.
Qed.

(** C7 on the radial camera.  The distortion Jacobian is requested for the
    point (0.25, 0.5, 1) and no external coefficient vector is supplied.
    The active coefficient vector is the camera's own, [0.1], and the
    distortion's parameter Jacobian evaluated with it exists; the code
    hands [distortParameterJacobian] the null external pointer instead, and
    the call aborts.  With the coefficients supplied externally the rows
    come out scaled by fu and fv. *)
Theorem distortion_jacobian_without_external_coefficients :
  let cam := radial_camera in
  let D := Radial.make 0.1 in
  let fu := 400 in
  let fv := 400 in
  exists uv J r,
    Spec.active_distortion_coefficients cam None = Some [0.1]
    /\ Spec.distorted cam (Some [0.1]) false (Spec.normalized 0.9 in_front) = Ok uv
    /\ distortParameterJacobian D (Some [0.1]) uv (zeros2X 0) = Ok J
    /\ project3Functional cam in_front None None (Some Zero2)
                          None None (Some (zeros2X 0))
       = Fatal "dist_coeffs is NULL"
    /\ distortParameterJacobian D None uv (zeros2X 0)
       = Fatal "dist_coeffs is NULL"
    /\ project3Functional cam in_front None (Some [0.1]) (Some Zero2)
                          None None (Some (zeros2X 0))
       = Ok r
    /\ jacobian_distortion r = Some (scale_rows2X J fu fv).
Proof.
  intros cam D fu fv.
  eexists. eexists. eexists.
  split; [reflexivity|].
  split; [vm_compute; reflexivity|].
  split; [vm_compute; reflexivity|].
  split; [vm_compute; reflexivity|].
  split; [vm_compute; reflexivity|].
  split; [vm_compute; reflexivity|].
  vm_compute; reflexivity.
Qed.
End ProjectionFacts.

Module BackProjectionFacts.
Import Camera Examples.
Local Open Scope float_scope.

(** The bearing vector is [Spec.bearing], and the flag is the validity of
    the squared radius. *)
Lemma backProject3_spec
      (cam : UnifiedProjectionCamera) (kp : Vector2d) (out0 : Vector3d) :
  let uv := Spec.undistorted cam (Spec.unaffine cam kp) in
  backProject3 cam kp (Some out0)
  = Ok (isUndistortedKeypointValid (Spec.rho2 uv) (xi cam),
        Spec.bearing (xi cam) uv).
Proof.
  unfold backProject3, Spec.undistorted, Spec.unaffine.
  destruct (distortion_ cam); reflexivity.
Qed.

(** C5. [backProject3] writes the bearing vector
    (u, v, 1 - xi (rho2_d + 1) / (xi + sqrt t)), where (u,v) is
    ((kp.x - cu)/fu, (kp.y - cv)/fv) passed through the undistortion when
    the camera has a distortion, rho2_d = u^2 + v^2 and
    t = max(1 + (1 - xi^2) rho2_d, 0); it returns
    [isUndistortedKeypointValid rho2_d xi], and neither output changes
    with the size of the image. *)
Theorem backProject3_bearing
        (cam : UnifiedProjectionCamera) (kp : Vector2d) (out0 : Vector3d) :
  let uv := Spec.undistorted cam (Spec.unaffine cam kp) in
  let rho2_d := v2_0 uv * v2_0 uv + v2_1 uv * v2_1 uv in
  let t := Double.std_max (1 + (1 - xi cam * xi cam) * rho2_d) 0 in
  backProject3 cam kp (Some out0)
  = Ok (isUndistortedKeypointValid rho2_d (xi cam),
        V3 (v2_0 uv) (v2_1 uv)
           (1 - xi cam * (rho2_d + 1) / (xi cam + PrimFloat.sqrt t)))
  /\
  forall w h : Z,
    backProject3 (with_image_size cam w h) kp (Some out0)
    = backProject3 cam kp (Some out0).
Proof.
  split.
  - apply backProject3_spec.
  - intros w h. reflexivity.
Qed.

(** [isLiftable] undoes the affine step by multiplying with 1/fu and 1/fv. *)
Lemma isLiftable_unfold (cam : UnifiedProjectionCamera) (kp : Vector2d) :
  isLiftable cam kp
  = isUndistortedKeypointValid
      (Spec.rho2 (Spec.undistorted cam
                    (V2 (1 / fu cam * (v2_0 kp - cu cam))
                        (1 / fv cam * (v2_1 kp - cv cam)))))
      (xi cam).
Proof.
  unfold isLiftable, Spec.undistorted, Spec.rho2.
  destruct (distortion_ cam); reflexivity.
Qed.

(** For xi <= 1 every keypoint is liftable and back-projects with a true
    flag. *)
Lemma backProject3_isLiftable_small_xi
      (cam : UnifiedProjectionCamera) (kp : Vector2d) (out0 : Vector3d) :
  (xi cam <=? 1) = true ->
  isLiftable cam kp = true /\
  exists v, backProject3 cam kp (Some out0) = Ok (true, v).
Proof.
  intros Hxi. split.
  - rewrite isLiftable_unfold. unfold isUndistortedKeypointValid.
    rewrite Hxi. reflexivity.
  - rewrite backProject3_spec. unfold isUndistortedKeypointValid.
    rewrite Hxi. eexists. reflexivity.
Qed.

(** C10 on two cameras with xi = 1.8, (cu,cv) = (320,240), 640 x 480 and
    no distortion.  [backProject3] divides by the focal length and
    [isLiftable] multiplies by its reciprocal, and the two results can be
    one unit in the last place apart, on either side of the bound
    1/(xi^2 - 1).  With fu = fv = 380 the keypoint (66.101820183196807, 240)
    lies inside the image and is liftable, and [backProject3] returns
    false on it, so that [createRandomVisiblePoint] aborts on such a
    keypoint.  With fu = fv = 400 the keypoint (52.738758087575597, 240)
    lies inside the image, [backProject3] returns true on it, and it is
    not liftable. *)
Theorem backProject3_isLiftable_disagree :
  (edge_keypoint_380 = V2 66.101820183196807 240
   /\ isKeypointVisible mirror_camera_380 edge_keypoint_380 = true
   /\ isLiftable mirror_camera_380 edge_keypoint_380 = true
   /\ (exists v, backProject3 mirror_camera_380 edge_keypoint_380 (Some (V3 0 0 0))
                 = Ok (false, v))
   /\ (v2_0 edge_keypoint_380 - 320) / 380 = -0.66815310478106105
   /\ 1 / 380 * (v2_0 edge_keypoint_380 - 320) = -0.66815310478106094
   /\ createRandomVisiblePoint_from mirror_camera_380 1 edge_keypoint_380
      = Fatal "backprojection of createRandomVisiblePoint was unsuccessful!")
  /\
  (edge_keypoint = V2 52.738758087575597 240
   /\ isKeypointVisible mirror_camera edge_keypoint = true
   /\ isLiftable mirror_camera edge_keypoint = false
   /\ (exists v, backProject3 mirror_camera edge_keypoint (Some (V3 0 0 0))
                 = Ok (true, v))
   /\ (v2_0 edge_keypoint - 320) / 400 = -0.66815310478106094
   /\ 1 / 400 * (v2_0 edge_keypoint - 320) = -0.66815310478106105).
Proof.
  split.
  - split; [vm_compute; reflexivity|].
    split; [vm_compute; reflexivity|].
    split; [vm_compute; reflexivity|].
    split; [eexists; vm_compute; reflexivity|].
    split; [vm_compute; reflexivity|].
    split; vm_compute; reflexivity.
  - split; [vm_compute; reflexivity|].
    split; [vm_compute; reflexivity|].
    split; [vm_compute; reflexivity|].
    split; [eexists; vm_compute; reflexivity|].
    split; vm_compute; reflexivity.
Qed.
End BackProjectionFacts.

Module SamplingFacts.
Import Camera Examples.
Local Open Scope float_scope.

(** One pass through the loop body builds the sample the spec describes. *)
Lemma candidate_spec (cam : UnifiedProjectionCamera) (r : Draw) :
  candidate cam r = Spec.sample cam r.
Proof.
  unfold candidate, Spec.sample, Spec.affine, Spec.direction, Spec.fraction.
  unfold fu, fv, cu, cv.
  destruct (distortion_ cam); reflexivity.
Qed.

(** One evaluation of the loop condition, and one pass through the body. *)
Lemma createRandomKeypoint_loop_step
      (fuel : nat) (cam : UnifiedProjectionCamera) (rng : nat -> Draw)
      (k : nat) (t : Z) (u : Vector2d) :
  createRandomKeypoint_loop (S fuel) cam rng k t u
  = if isLiftable cam u && isKeypointVisible cam u
    then Some (u, k)
    else if (t - 1 <? 1)%Z
         then Some (V2 (cu cam) (cv cam), S k)
         else createRandomKeypoint_loop fuel cam rng (S k) (t - 1)
                (candidate cam (rng k)).
Proof. reflexivity. Qed.

(** The loop, entered for the [k]-th time with [10 - k] tries left. *)
Lemma createRandomKeypoint_loop_returns
      (cam : UnifiedProjectionCamera) (rng : nat -> Draw) :
  forall (fuel k : nat) (t : Z) (u : Vector2d),
    (fuel + k = 10)%nat ->
    (0 < fuel)%nat ->
    t = (10 - Z.of_nat k)%Z ->
    (forall j, k = S j -> u = Spec.sample cam (rng j)) ->
    exists u' k',
      createRandomKeypoint_loop fuel cam rng k t u = Some (u', k')
      /\ Spec.sampling_outcome cam rng u' k'.
Proof.
  induction fuel as [|fuel IH]; intros k t u Hsum Hpos Ht Hu; [lia|].
  rewrite createRandomKeypoint_loop_step.
  destruct (isLiftable cam u && isKeypointVisible cam u) eqn:Hvalid.
  - exists u, k. split; [reflexivity|].
    left. split; [exact Hvalid | split; [lia | exact Hu]].
  - destruct (t - 1 <? 1)%Z eqn:Hlast.
    + exists (V2 (cu cam) (cv cam)), (S k). split; [reflexivity|].
      right. apply Z.ltb_lt in Hlast. split; [lia | reflexivity].
    + apply Z.ltb_ge in Hlast.
      apply IH; [lia | lia | lia |].
      intros j [= <-]. apply candidate_spec.
Qed.

(** The loop as rejection sampling.  Entered before draw [k] with the
    current value [u], it stops at the first value that passes the test
    "liftable and inside the image box": [u] itself, or else the first
    accepted sample among the draws [k] to 8, every earlier one having
    been rejected; if [u] and all those samples are rejected, it consumes
    the tenth draw and returns the principal point. *)
Lemma createRandomKeypoint_loop_first_accepted
      (cam : UnifiedProjectionCamera) (rng : nat -> Draw) :
  let accepted := fun u => isLiftable cam u && isKeypointVisible cam u in
  forall (fuel k : nat) (t : Z) (u : Vector2d),
    (fuel + k = 10)%nat ->
    (0 < fuel)%nat ->
    t = (10 - Z.of_nat k)%Z ->
    exists u' k',
      createRandomKeypoint_loop fuel cam rng k t u = Some (u', k')
      /\
      ((k' = k /\ u' = u /\ accepted u = true)
       \/
       (exists j,
           k' = S j /\ (k <= j < 9)%nat
           /\ u' = Spec.sample cam (rng j)
           /\ accepted u' = true
           /\ accepted u = false
           /\ forall i, (k <= i < j)%nat ->
                        accepted (Spec.sample cam (rng i)) = false)
       \/
       (k' = 10%nat /\ u' = V2 (cu cam) (cv cam)
        /\ accepted u = false
        /\ forall i, (k <= i < 9)%nat ->
                     accepted (Spec.sample cam (rng i)) = false)).
Proof.
  intros accepted.
  induction fuel as [|fuel IH]; intros k t u Hsum Hpos Ht; [lia|].
  rewrite createRandomKeypoint_loop_step.
  fold (accepted u).
  destruct (accepted u) eqn:Hu.
  - exists u, k. split; [reflexivity|]. left. repeat split; reflexivity.
  - destruct (t - 1 <? 1)%Z eqn:Hlast.
    + apply Z.ltb_lt in Hlast.
      exists (V2 (cu cam) (cv cam)), (S k). split; [reflexivity|].
      right. right. split; [lia|]. split; [reflexivity|].
      split; [reflexivity|]. intros i Hi. lia.
    + apply Z.ltb_ge in Hlast.
      rewrite candidate_spec.
      destruct (IH (S k) (t - 1)%Z (Spec.sample cam (rng k)))
        as (u' & k' & Hrun & Hcase); [lia | lia | lia |].
      exists u', k'. split; [exact Hrun|].
      destruct Hcase as [(-> & -> & Hacc)
                        | [(j & -> & Hj & -> & Hacc & Hfirst & Hrej)
                          | (-> & -> & Hfirst & Hrej)]].
      * right. left. exists k.
        split; [reflexivity|]. split; [lia|]. split; [reflexivity|].
        split; [exact Hacc|]. split; [reflexivity|].
        intros i Hi. lia.
      * right. left. exists j.
        split; [reflexivity|]. split; [lia|]. split; [reflexivity|].
        split; [exact Hacc|]. split; [reflexivity|].
        intros i Hi. destruct (Nat.eq_dec i k) as [-> | Hne].
        -- exact Hfirst.
        -- apply Hrej. lia.
      * right. right.
        split; [reflexivity|]. split; [reflexivity|]. split; [reflexivity|].
        intros i Hi. destruct (Nat.eq_dec i k) as [-> | Hne].
        -- exact Hfirst.
        -- apply Hrej. lia.
Qed.

(** C9. Whatever the random draws, [createRandomKeypoint] returns (it never
    aborts), and it is rejection sampling bounded at 10 passes.  Each pass
    builds one sample from one draw: a direction on the normalized plane,
    its radius scaled by a fraction of 1/(xi^2 - 1), distorted, and taken
    through the affine step.  The result is the first value that is
    liftable and inside the image box: the starting value
    (width + 1, height + 1) if it passes the test, else the first accepted
    sample, every sample before it having been rejected; only when the
    starting value and the samples of all earlier passes were rejected
    does the tenth pass end the loop, and the result is then exactly the
    principal point (cu, cv), with ten draws consumed. *)
Theorem createRandomKeypoint_returns
        (cam : UnifiedProjectionCamera) (rng : nat -> Draw) :
  let accepted := fun u => isLiftable cam u && isKeypointVisible cam u in
  let start := V2 (imageWidth cam + 1) (imageHeight cam + 1) in
  exists (u : Vector2d) (k : nat),
    createRandomKeypoint cam rng = Some (u, k)
    /\
    ((k = 0%nat /\ u = start /\ accepted u = true)
     \/
     (exists j,
         k = S j /\ (j < 9)%nat
         /\ u = Spec.sample cam (rng j)
         /\ accepted u = true
         /\ accepted start = false
         /\ forall i, (i < j)%nat ->
                      accepted (Spec.sample cam (rng i)) = false)
     \/
     (k = 10%nat /\ u = V2 (cu cam) (cv cam)
      /\ accepted start = false
      /\ forall i, (i < 9)%nat ->
                   accepted (Spec.sample cam (rng i)) = false)).
Proof.
  intros accepted start.
  unfold createRandomKeypoint, createRandomKeypoint_fuel. fold start.
  destruct (createRandomKeypoint_loop_first_accepted cam rng 10 0 10 start)
    as (u & k & Hrun & Hcase); [lia | lia | lia |].
  exists u, k. split; [exact Hrun|].
  destruct Hcase as [(-> & -> & Hacc)
                    | [(j & -> & Hj & -> & Hacc & Hstart & Hrej)
                      | (-> & -> & Hstart & Hrej)]].
  - left. repeat split; [exact Hacc].
  - right. left. exists j.
    split; [reflexivity|]. split; [lia|]. split; [reflexivity|].
    split; [exact Hacc|]. split; [exact Hstart|].
    intros i Hi. apply Hrej. lia.
  - right. right.
    split; [reflexivity|]. split; [reflexivity|]. split; [exact Hstart|].
    intros i Hi. apply Hrej. lia.
Qed.

(** More fuel does not change the result. *)
Lemma createRandomKeypoint_loop_fuel
      (cam : UnifiedProjectionCamera) (rng : nat -> Draw) :
  forall (fuel k : nat) (t : Z) (u : Vector2d) (res : Vector2d * nat),
    createRandomKeypoint_loop fuel cam rng k t u = Some res ->
    createRandomKeypoint_loop (S fuel) cam rng k t u = Some res.
Proof.
  induction fuel as [|fuel IH]; intros k t u res; [discriminate|].
  rewrite !createRandomKeypoint_loop_step.
  destruct (isLiftable cam u && isKeypointVisible cam u); [exact (fun H => H)|].
  destruct (t - 1 <? 1)%Z; [exact (fun H => H)|].
  apply IH.
Qed.

(** A run in which every sample is rejected: the tenth draw is consumed
    and the principal point comes back. *)
Example createRandomKeypoint_exhausted :
  createRandomKeypoint test_camera (constant_rng (V2 1 0.5) RAND_MAX)
  = Some (V2 320 240, 10%nat).
Proof. vm_compute. reflexivity. Qed.

(** A run that accepts its first sample. *)
Example createRandomKeypoint_first :
  createRandomKeypoint test_camera (constant_rng (V2 0.7 0.1) 1000000)
  = Some (V2 319.56157882383366 240.87684235233266, 1%nat).
Proof. vm_compute. reflexivity. Qed.
End SamplingFacts.

(** ** Not-a-number and zero *)

Module NaNFacts.
Local Open Scope float_scope.

Lemma of_SF_nan (x : float) : Prim2SF x = S754_nan -> x = nan.
Proof. intros H. apply Prim2SF_inj. rewrite H. reflexivity. Qed.

Lemma mul_nan_l (y : float) : nan * y = nan.
Proof. apply of_SF_nan. rewrite mul_spec. reflexivity. Qed.

Lemma mul_nan_r (x : float) : x * nan = nan.
Proof.
  apply of_SF_nan. rewrite mul_spec. change (Prim2SF nan) with S754_nan.
  unfold SF64mul, SFmul. destruct (Prim2SF x); reflexivity.
Qed.

Lemma add_nan_l (y : float) : nan + y = nan.
Proof. apply of_SF_nan. rewrite add_spec. reflexivity. Qed.

Lemma add_nan_r (x : float) : x + nan = nan.
Proof.
  apply of_SF_nan. rewrite add_spec. change (Prim2SF nan) with S754_nan.
  unfold SF64add, SFadd. destruct (Prim2SF x); reflexivity.
Qed.

Lemma sub_nan_l (y : float) : nan - y = nan.
Proof. apply of_SF_nan. rewrite sub_spec. reflexivity. Qed.

Lemma sub_nan_r (x : float) : x - nan = nan.
Proof.
  apply of_SF_nan. rewrite sub_spec. change (Prim2SF nan) with S754_nan.
  unfold SF64sub, SFsub. destruct (Prim2SF x); reflexivity.
Qed.

Lemma div_nan_l (y : float) : nan / y = nan.
Proof. apply of_SF_nan. rewrite div_spec. reflexivity. Qed.

Lemma div_nan_r (x : float) : x / nan = nan.
Proof.
  apply of_SF_nan. rewrite div_spec. change (Prim2SF nan) with S754_nan.
  unfold SF64div, SFdiv. destruct (Prim2SF x); reflexivity.
Qed.

Lemma ltb_nan_l (y : float) : (nan <? y) = false.
Proof. rewrite FloatAxioms.ltb_spec. reflexivity. Qed.

Lemma leb_nan_l (y : float) : (nan <=? y) = false.
Proof. rewrite FloatAxioms.leb_spec. reflexivity. Qed.

Lemma leb_nan_r (x : float) : (x <=? nan) = false.
Proof.
  rewrite FloatAxioms.leb_spec. change (Prim2SF nan) with S754_nan.
  unfold SFleb, SFcompare. destruct (Prim2SF x); reflexivity.
Qed.

Lemma ltb_nan_r (x : float) : (x <? nan) = false.
Proof.
  rewrite FloatAxioms.ltb_spec. change (Prim2SF nan) with S754_nan.
  unfold SFltb, SFcompare. destruct (Prim2SF x); reflexivity.
Qed.

(** The norm of a point with a NaN coordinate is NaN. *)
Lemma norm3_nan (p : Vector3d) :
  v3_0 p = nan \/ v3_1 p = nan \/ v3_2 p = nan -> norm3 p = nan.
Proof.
  unfold norm3, squaredNorm3. intros [H | [H | H]]; rewrite H.
  - rewrite mul_nan_l, !add_nan_l. reflexivity.
  - rewrite mul_nan_l, add_nan_r, add_nan_l. reflexivity.
  - rewrite mul_nan_l, add_nan_r. reflexivity.
Qed.

(** Whatever [a] is, [-(a * 0)] is a zero or NaN, and [0] is not above it. *)
Lemma opp_mul_zero_not_below (a : float) : (- (a * 0) <? 0) = false.
Proof.
  rewrite FloatAxioms.ltb_spec, opp_spec, mul_spec.
  change (Prim2SF 0) with (S754_zero false).
  unfold SF64mul, SFmul.
  destruct (Prim2SF a) as [s|s| |s m e]; try destruct s; reflexivity.
Qed.
End NaNFacts.

(** ** More on project3Functional *)

Module ProjectionEdgeFacts.
Import Camera Examples.
Local Open Scope float_scope.

Lemma active_intrinsics_unfold
      (cam : UnifiedProjectionCamera) (ie : option VectorXd) :
  match ie with
  | Some v => v
  | None => intrinsics_ cam
  end = Spec.active_intrinsics cam ie.
Proof. destruct ie; reflexivity. Qed.

Lemma size_check_5 (v : VectorXd) :
  size v = 5%Z -> negb (size v =? kNumOfParams)%Z = false.
Proof. intros ->. reflexivity. Qed.

(** The branch taken when the comparison [z > -(fov(xi) d)] is false. *)
Lemma project3Functional_gate_closed
      (cam : UnifiedProjectionCamera) (p : Vector3d)
      (ie de : option VectorXd) (kp0 : Vector2d)
      (jp : option Matrix23) (ji jd : option Matrix2X) :
  let intrinsics := Spec.active_intrinsics cam ie in
  size intrinsics = 5%Z ->
  (v3_2 p >? - (fov_parameter (coeff intrinsics 0) * norm3 p)) = false ->
  project3Functional cam p ie de (Some kp0) jp ji jd
  = Ok {| status := PROJECTION_INVALID;
          keypoint := V2 0 0;
          jacobian_point := jp;
          jacobian_intrinsics := ji;
          jacobian_distortion := jd |}.
Proof.
  intros intrinsics Hsize Hgate. unfold project3Functional.
  replace (match ie with
           | Some v => v
           | None => intrinsics_ cam
           end) with intrinsics by (destruct ie; reflexivity).
  rewrite (size_check_5 _ Hsize), Hgate. reflexivity.
Qed.

(** The branch taken when the comparison is true, on a camera without
    distortion: the whole result in closed form. *)
Lemma project3Functional_no_distortion
      (cam : UnifiedProjectionCamera) (p : Vector3d)
      (ie de : option VectorXd) (kp0 : Vector2d)
      (jp : option Matrix23) (ji jd : option Matrix2X) :
  let intrinsics := Spec.active_intrinsics cam ie in
  let xi := coeff intrinsics 0 in
  let fu := coeff intrinsics 1 in
  let fv := coeff intrinsics 2 in
  let d := norm3 p in
  let rz := 1 / (v3_2 p + xi * d) in
  let uv := Spec.normalized xi p in
  distortion_ cam = None ->
  size intrinsics = 5%Z ->
  (v3_2 p >? - (fov_parameter xi * norm3 p)) = true ->
  project3Functional cam p ie de (Some kp0) jp ji jd
  = Ok {| status := evaluateProjectionResult cam (Spec.affine intrinsics uv) p;
          keypoint := Spec.affine intrinsics uv;
          jacobian_point :=
            option_map (fun _ => jacobian_point_block
                                   xi fu fv (v3_0 p) (v3_1 p) (v3_2 p) d rz
                                   Identity2) jp;
          jacobian_intrinsics :=
            option_map (fun _ => jacobian_intrinsics_block fu fv d rz uv
                                   Identity2) ji;
          jacobian_distortion := jd |}.
Proof.
  intros intrinsics xi fu fv d rz uv Hnone Hsize Hgate.
  unfold project3Functional.
  replace (match ie with
           | Some v => v
           | None => intrinsics_ cam
           end) with intrinsics by (destruct ie; reflexivity).
  rewrite (size_check_5 _ Hsize). fold xi. rewrite Hgate, Hnone.
  destruct jp, ji, jd; reflexivity.
Qed.

(** When the comparison is true, the status is the classification of the
    returned keypoint. *)
Lemma project3Functional_status
      (cam : UnifiedProjectionCamera) (p : Vector3d)
      (ie de : option VectorXd) (out : option Vector2d)
      (jp : option Matrix23) (ji jd : option Matrix2X) (r : Projection) :
  let xi := coeff (Spec.active_intrinsics cam ie) 0 in
  project3Functional cam p ie de out jp ji jd = Ok r ->
  (v3_2 p >? - (fov_parameter xi * norm3 p)) = true ->
  status r = evaluateProjectionResult cam (keypoint r) p.
Proof.
  intros xi. unfold project3Functional.
  destruct out as [kp0|]; [|discriminate].
  rewrite active_intrinsics_unfold. fold xi.
  destruct (negb (size (Spec.active_intrinsics cam ie) =? kNumOfParams)%Z);
    [discriminate|].
  intros H Hgate. rewrite Hgate in H. simpl negb in H. cbv iota in H.
  destruct (distortion_ cam) as [D|].
  - destruct jp as [jp0|]; simpl in H;
      destruct (distortUsingExternalCoefficients D _ _ _) as [[uv' J']|msg];
      simpl in H; try discriminate;
      (destruct jd as [J|]; simpl in H;
       [ destruct (distortParameterJacobian D _ uv' J); simpl in H;
         try discriminate | ]);
      injection H as <-; reflexivity.
  - destruct jp; simpl in H; destruct jd; injection H as <-; reflexivity.
Qed.

(** X1. On a camera without distortion [project3Functional] aborts exactly
    when [out_keypoint] is null or the active intrinsics vector does not
    have 5 entries; every point, whatever its coordinates, gets a result
    otherwise. *)
Theorem project3Functional_ok_iff
        (cam : UnifiedProjectionCamera) (p : Vector3d)
        (ie de : option VectorXd) (out : option Vector2d)
        (jp : option Matrix23) (ji jd : option Matrix2X) :
  distortion_ cam = None ->
  is_ok (project3Functional cam p ie de out jp ji jd)
  = non_null out && (size (Spec.active_intrinsics cam ie) =? 5)%Z.
Proof.
  intros Hnone. destruct out as [kp0|]; [|reflexivity].
  destruct (size (Spec.active_intrinsics cam ie) =? 5)%Z eqn:Hsize.
  - apply Z.eqb_eq in Hsize.
    destruct (v3_2 p >? - (fov_parameter (coeff (Spec.active_intrinsics cam ie) 0)
                           * norm3 p)) eqn:Hgate.
    + rewrite (project3Functional_no_distortion cam p ie de kp0 jp ji jd
                 Hnone Hsize Hgate). reflexivity.
    + rewrite (project3Functional_gate_closed cam p ie de kp0 jp ji jd
                 Hsize Hgate). reflexivity.
  - unfold project3Functional. rewrite active_intrinsics_unfold.
    unfold kNumOfParams. rewrite Hsize. reflexivity.
Qed.

Lemma project3Functional_ok_iff_witness :
  is_ok (project3Functional test_camera in_front (Some [0.9; 400; 400; 320])
                            None (Some Zero2) None None None)
  = non_null (Some Zero2)
    && (size (Spec.active_intrinsics test_camera
                                     (Some [0.9; 400; 400; 320]%float))
        =? 5)%Z.
Proof.
  apply (project3Functional_ok_iff test_camera in_front
           (Some [0.9; 400; 400; 320]) None (Some Zero2) None None None).
  reflexivity.
Defined.

(** X2. A point with a NaN coordinate, or a NaN mirror parameter in the
    active intrinsics, never yields a keypoint: the call returns
    [PROJECTION_INVALID] with the keypoint (0,0) and leaves the Jacobian
    outputs as they were, with or without a distortion. *)
Theorem project3Functional_nan
        (cam : UnifiedProjectionCamera) (p : Vector3d)
        (ie de : option VectorXd) (kp0 : Vector2d)
        (jp : option Matrix23) (ji jd : option Matrix2X) :
  size (Spec.active_intrinsics cam ie) = 5%Z ->
  v3_0 p = nan \/ v3_1 p = nan \/ v3_2 p = nan
  \/ coeff (Spec.active_intrinsics cam ie) 0 = nan ->
  project3Functional cam p ie de (Some kp0) jp ji jd
  = Ok {| status := PROJECTION_INVALID;
          keypoint := V2 0 0;
          jacobian_point := jp;
          jacobian_intrinsics := ji;
          jacobian_distortion := jd |}.
Proof.
  intros Hsize Hnan.
  apply project3Functional_gate_closed; [exact Hsize|].
  unfold Double.gtb.
  assert (Hprod : fov_parameter (coeff (Spec.active_intrinsics cam ie) 0)
                  * norm3 p = nan).
  { destruct Hnan as [H | [H | [H | H]]].
    - rewrite (NaNFacts.norm3_nan p (or_introl H)). apply NaNFacts.mul_nan_r.
    - rewrite (NaNFacts.norm3_nan p (or_intror (or_introl H))).
      apply NaNFacts.mul_nan_r.
    - rewrite (NaNFacts.norm3_nan p (or_intror (or_intror H))).
      apply NaNFacts.mul_nan_r.
    - rewrite H. unfold fov_parameter. rewrite NaNFacts.leb_nan_l.
      rewrite NaNFacts.div_nan_r. apply NaNFacts.mul_nan_l. }
  rewrite Hprod. apply NaNFacts.ltb_nan_l.
Qed.

Lemma project3Functional_nan_witness :
  project3Functional test_camera (V3 nan 0 1) None None (Some (V2 3 4))
                     None (Some (zeros2X 1)) None
  = Ok {| status := PROJECTION_INVALID;
          keypoint := V2 0 0;
          jacobian_point := None;
          jacobian_intrinsics := Some (zeros2X 1);
          jacobian_distortion := None |}.
Proof.
  apply (project3Functional_nan test_camera (V3 nan 0 1) None None (V2 3 4)
           None (Some (zeros2X 1)) None).
  - reflexivity.
  - left. reflexivity.
Defined.

(** X3. The camera centre (0,0,0) never projects: for every camera and
    every active intrinsics vector of 5 entries the call returns
    [PROJECTION_INVALID] with the keypoint (0,0), through the validity gate
    and before any division by z + xi d = 0 can reach the keypoint. *)
Theorem project3Functional_origin
        (cam : UnifiedProjectionCamera)
        (ie de : option VectorXd) (kp0 : Vector2d)
        (jp : option Matrix23) (ji jd : option Matrix2X) :
  size (Spec.active_intrinsics cam ie) = 5%Z ->
  project3Functional cam (V3 0 0 0) ie de (Some kp0) jp ji jd
  = Ok {| status := PROJECTION_INVALID;
          keypoint := V2 0 0;
          jacobian_point := jp;
          jacobian_intrinsics := ji;
          jacobian_distortion := jd |}.
Proof.
  intros Hsize.
  apply project3Functional_gate_closed; [exact Hsize|].
  unfold Double.gtb.
  change (norm3 (V3 0 0 0)) with 0.
  change (v3_2 (V3 0 0 0)) with 0.
  apply NaNFacts.opp_mul_zero_not_below.
Qed.

Lemma project3Functional_origin_witness :
  project3Functional radial_camera (V3 0 0 0) None None (Some (V2 3 4))
                     (Some (M23 1 2 3 4 5 6)) None (Some (zeros2X 1))
  = Ok {| status := PROJECTION_INVALID;
          keypoint := V2 0 0;
          jacobian_point := Some (M23 1 2 3 4 5 6);
          jacobian_intrinsics := None;
          jacobian_distortion := Some (zeros2X 1) |}.
Proof.
  apply (project3Functional_origin radial_camera None None (V2 3 4)
           (Some (M23 1 2 3 4 5 6)) None (Some (zeros2X 1))).
  reflexivity.
Defined.

Lemma project3Functional_ok_inv
      (cam : UnifiedProjectionCamera) (p : Vector3d)
      (ie de : option VectorXd) (out : option Vector2d)
      (jp : option Matrix23) (ji jd : option Matrix2X) (r : Projection) :
  project3Functional cam p ie de out jp ji jd = Ok r ->
  (exists kp0, out = Some kp0) /\ size (Spec.active_intrinsics cam ie) = 5%Z.
Proof.
  unfold project3Functional. destruct out as [kp0|]; [|discriminate].
  rewrite active_intrinsics_unfold. unfold kNumOfParams.
  destruct (size (Spec.active_intrinsics cam ie) =? 5)%Z eqn:Hsize;
    [|discriminate].
  intros _. split; [eexists; reflexivity | apply Z.eqb_eq; exact Hsize].
Qed.

(** X4. The status can be trusted: when [project3Functional] returns
    [KEYPOINT_VISIBLE], the keypoint it wrote is inside the image box, the
    point passed the validity gate and |p|^2 > 1e-10^2; when it returns
    [KEYPOINT_OUTSIDE_IMAGE_BOX], the same holds except that the keypoint is
    outside the box. *)
Theorem project3Functional_status_sound
        (cam : UnifiedProjectionCamera) (p : Vector3d)
        (ie de : option VectorXd) (out : option Vector2d)
        (jp : option Matrix23) (ji jd : option Matrix2X) (r : Projection) :
  let xi := coeff (Spec.active_intrinsics cam ie) 0 in
  project3Functional cam p ie de out jp ji jd = Ok r ->
  (status r = KEYPOINT_VISIBLE ->
     isKeypointVisible cam (keypoint r) = true
     /\ Spec.gate xi p = true
     /\ (squaredNorm3 p >? 1e-10 * 1e-10) = true)
  /\
  (status r = KEYPOINT_OUTSIDE_IMAGE_BOX ->
     isKeypointVisible cam (keypoint r) = false
     /\ Spec.gate xi p = true
     /\ (squaredNorm3 p >? 1e-10 * 1e-10) = true).
Proof.
  intros xi Hok.
  destruct (project3Functional_ok_inv _ _ _ _ _ _ _ _ _ Hok) as [[kp0 ->] Hsize].
  destruct (v3_2 p >? - (fov_parameter xi * norm3 p)) eqn:Hgate.
  - pose proof (project3Functional_status _ _ _ _ _ _ _ _ _ Hok Hgate) as Hst.
    rewrite Hst. unfold evaluateProjectionResult.
    change (kMinimumDepth * kMinimumDepth) with (1e-10 * 1e-10).
    assert (Hg : Spec.gate xi p = true) by exact Hgate.
    destruct (isKeypointVisible cam (keypoint r)),
             (squaredNorm3 p >? 1e-10 * 1e-10),
             (squaredNorm3 p <=? 1e-10 * 1e-10); simpl;
      split; intros H; try discriminate H;
      repeat split; (reflexivity || assumption).
  - rewrite (project3Functional_gate_closed cam p ie de kp0 jp ji jd
               Hsize Hgate) in Hok.
    injection Hok as <-. simpl. split; discriminate.
Qed.

Lemma project3Functional_status_sound_witness :
  (KEYPOINT_VISIBLE = KEYPOINT_VISIBLE ->
     isKeypointVisible test_camera
       (Spec.affine (intrinsics_ test_camera) (Spec.normalized 0.9 in_front))
     = true
     /\ Spec.gate 0.9 in_front = true
     /\ (squaredNorm3 in_front >? 1e-10 * 1e-10) = true)
  /\
  (KEYPOINT_VISIBLE = KEYPOINT_OUTSIDE_IMAGE_BOX ->
     isKeypointVisible test_camera
       (Spec.affine (intrinsics_ test_camera) (Spec.normalized 0.9 in_front))
     = false
     /\ Spec.gate 0.9 in_front = true
     /\ (squaredNorm3 in_front >? 1e-10 * 1e-10) = true).
Proof.
  apply (project3Functional_status_sound test_camera in_front None None
           (Some Zero2) None None None
           {| status := KEYPOINT_VISIBLE;
              keypoint := Spec.affine (intrinsics_ test_camera)
                                      (Spec.normalized 0.9 in_front);
              jacobian_point := None;
              jacobian_intrinsics := None;
              jacobian_distortion := None |}).
  vm_compute. reflexivity.
Defined.

(** X5. On a camera without distortion, which Jacobians are requested
    changes neither the status nor the keypoint. *)
Theorem project3Functional_requests_irrelevant
        (cam : UnifiedProjectionCamera) (p : Vector3d)
        (ie de : option VectorXd) (out : option Vector2d)
        (jp jp' : option Matrix23) (ji ji' jd jd' : option Matrix2X)
        (r r' : Projection) :
  distortion_ cam = None ->
  project3Functional cam p ie de out jp ji jd = Ok r ->
  project3Functional cam p ie de out jp' ji' jd' = Ok r' ->
  status r = status r' /\ keypoint r = keypoint r'.
Proof.
  intros Hnone Hok Hok'.
  destruct (project3Functional_ok_inv _ _ _ _ _ _ _ _ _ Hok) as [[kp0 ->] Hsize].
  destruct (v3_2 p >? - (fov_parameter (coeff (Spec.active_intrinsics cam ie) 0)
                         * norm3 p)) eqn:Hgate.
  - rewrite (project3Functional_no_distortion cam p ie de kp0 jp ji jd
               Hnone Hsize Hgate) in Hok.
    rewrite (project3Functional_no_distortion cam p ie de kp0 jp' ji' jd'
               Hnone Hsize Hgate) in Hok'.
    injection Hok as <-. injection Hok' as <-. split; reflexivity.
  - rewrite (project3Functional_gate_closed cam p ie de kp0 jp ji jd
               Hsize Hgate) in Hok.
    rewrite (project3Functional_gate_closed cam p ie de kp0 jp' ji' jd'
               Hsize Hgate) in Hok'.
    injection Hok as <-. injection Hok' as <-. split; reflexivity.
Qed.

Lemma project3Functional_requests_irrelevant_witness :
  exists r r',
    project3Functional test_camera in_front None None (Some Zero2)
                       None None None = Ok r
    /\ project3Functional test_camera in_front None None (Some Zero2)
                          (Some (M23 0 0 0 0 0 0)) (Some (zeros2X 0))
                          (Some (zeros2X 0)) = Ok r'
    /\ status r = status r' /\ keypoint r = keypoint r'.
Proof.
  eexists. eexists.
  split; [vm_compute; reflexivity|].
  split; [vm_compute; reflexivity|].
  apply (project3Functional_requests_irrelevant test_camera in_front None None
           (Some Zero2) None (Some (M23 0 0 0 0 0 0))
           None (Some (zeros2X 0)) None (Some (zeros2X 0))).
  - reflexivity.
  - vm_compute. reflexivity.
  - vm_compute. reflexivity.
Defined.

(** X6. On a camera without distortion a requested distortion Jacobian is
    not computed: the matrix behind [out_jacobian_distortion] comes back as
    it was passed in, neither resized nor zeroed, whether or not the point
    passes the gate. *)
Theorem project3Functional_distortion_jacobian_untouched
        (cam : UnifiedProjectionCamera) (p : Vector3d)
        (ie de : option VectorXd) (out : option Vector2d)
        (jp : option Matrix23) (ji jd : option Matrix2X) (r : Projection) :
  distortion_ cam = None ->
  project3Functional cam p ie de out jp ji jd = Ok r ->
  jacobian_distortion r = jd.
Proof.
  intros Hnone Hok.
  destruct (project3Functional_ok_inv _ _ _ _ _ _ _ _ _ Hok) as [[kp0 ->] Hsize].
  destruct (v3_2 p >? - (fov_parameter (coeff (Spec.active_intrinsics cam ie) 0)
                         * norm3 p)) eqn:Hgate.
  - rewrite (project3Functional_no_distortion cam p ie de kp0 jp ji jd
               Hnone Hsize Hgate) in Hok.
    injection Hok as <-. reflexivity.
  - rewrite (project3Functional_gate_closed cam p ie de kp0 jp ji jd
               Hsize Hgate) in Hok.
    injection Hok as <-. reflexivity.
Qed.

Lemma project3Functional_distortion_jacobian_untouched_witness :
  exists r,
    project3Functional test_camera in_front None None (Some Zero2)
                       None None (Some (M2X [1; 2; 3] [4; 5; 6])) = Ok r
    /\ jacobian_distortion r = Some (M2X [1; 2; 3] [4; 5; 6]).
Proof.
  eexists. split; [vm_compute; reflexivity|].
  apply (project3Functional_distortion_jacobian_untouched test_camera in_front
           None None (Some Zero2) None None (Some (M2X [1; 2; 3] [4; 5; 6]))).
  - reflexivity.
  - vm_compute. reflexivity.
Defined.
End ProjectionEdgeFacts.

(** ** More on back-projection, construction, comparison and sampling *)

Module InterfaceFacts.
Import Camera CameraInterface Examples.
Local Open Scope float_scope.

(** *** Back-projection *)

(** X7. A keypoint with a NaN coordinate, on a camera without distortion:
    [backProject3] and [isLiftable] both answer [xi <= 1].  For xi <= 1 the
    keypoint counts as valid although the bearing vector written has a NaN
    among its first two components and a NaN third component; for xi > 1
    both reject it. *)
Theorem backProject3_nan_keypoint
        (cam : UnifiedProjectionCamera) (kp : Vector2d) (out0 : Vector3d) :
  distortion_ cam = None ->
  v2_0 kp = nan \/ v2_1 kp = nan ->
  isLiftable cam kp = (xi cam <=? 1)
  /\ exists v,
      backProject3 cam kp (Some out0) = Ok (xi cam <=? 1, v)
      /\ (v3_0 v = nan \/ v3_1 v = nan)
      /\ v3_2 v = nan.
Proof.
  intros Hnone Hnan. split.
  - rewrite BackProjectionFacts.isLiftable_unfold.
    unfold Spec.undistorted, Spec.rho2, isUndistortedKeypointValid.
    rewrite Hnone. simpl.
    destruct Hnan as [H | H]; rewrite H.
    + rewrite NaNFacts.sub_nan_l, NaNFacts.mul_nan_r, NaNFacts.mul_nan_l,
        NaNFacts.add_nan_l, NaNFacts.leb_nan_l. apply orb_false_r.
    + rewrite NaNFacts.sub_nan_l, NaNFacts.mul_nan_r, NaNFacts.mul_nan_l,
        NaNFacts.add_nan_r, NaNFacts.leb_nan_l. apply orb_false_r.
  - rewrite BackProjectionFacts.backProject3_spec.
    unfold Spec.undistorted, Spec.unaffine, Spec.bearing, Spec.rho2,
      isUndistortedKeypointValid.
    rewrite Hnone. simpl.
    destruct Hnan as [H | H]; rewrite H.
    + rewrite NaNFacts.sub_nan_l, NaNFacts.div_nan_l, NaNFacts.mul_nan_l,
        !NaNFacts.add_nan_l, NaNFacts.leb_nan_l, orb_false_r.
      eexists. split; [reflexivity|]. simpl. split; [left; reflexivity|].
      rewrite NaNFacts.mul_nan_r, NaNFacts.div_nan_l. apply NaNFacts.sub_nan_r.
    + rewrite NaNFacts.sub_nan_l, NaNFacts.div_nan_l, NaNFacts.mul_nan_l,
        NaNFacts.add_nan_r, NaNFacts.add_nan_l, NaNFacts.leb_nan_l, orb_false_r.
      eexists. split; [reflexivity|]. simpl. split; [right; reflexivity|].
      rewrite NaNFacts.mul_nan_r, NaNFacts.div_nan_l. apply NaNFacts.sub_nan_r.
Qed.

Lemma backProject3_nan_keypoint_witness :
  isLiftable mirror_camera (V2 100 nan) = (xi mirror_camera <=? 1)
  /\ exists v,
      backProject3 mirror_camera (V2 100 nan) (Some (V3 0 0 0))
      = Ok (xi mirror_camera <=? 1, v)
      /\ (v3_0 v = nan \/ v3_1 v = nan)
      /\ v3_2 v = nan.
Proof.
  apply (backProject3_nan_keypoint mirror_camera (V2 100 nan) (V3 0 0 0)).
  - reflexivity.
  - right. reflexivity.
Defined.

(** *** Construction *)

Lemma nth_nan_comparisons (x : float) :
  x = nan -> (x >=? 0) = false /\ (x >? 0) = false.
Proof.
  intros ->. unfold Double.geb, Double.gtb.
  split; [apply NaNFacts.leb_nan_r | apply NaNFacts.ltb_nan_r].
Qed.

(** X8. An intrinsics vector with a NaN among its five entries is rejected
    at construction. *)
Theorem construct_rejects_nan
        (v : VectorXd) (w h : Z) (dist : option Distortion) (i : nat) :
  (i < 5)%nat ->
  coeff v i = nan ->
  exists msg, construct v w h dist = Fatal msg.
Proof.
  intros Hi Hnan. unfold construct.
  assert (Hinv : intrinsicsValid v = false).
  { unfold intrinsicsValid.
    destruct (nth_nan_comparisons _ Hnan) as [Hge Hgt].
    destruct i as [|[|[|[|[|i]]]]]; [| | | | |lia].
    - rewrite Hge. rewrite andb_false_r. reflexivity.
    - rewrite Hgt. rewrite !andb_false_r. reflexivity.
    - rewrite Hgt. rewrite !andb_false_r. reflexivity.
    - rewrite Hgt. rewrite !andb_false_r. reflexivity.
    - rewrite Hgt. apply andb_false_r. }
  rewrite Hinv. eexists. reflexivity.
Qed.

Lemma construct_rejects_nan_witness :
  exists msg, construct [0.9; 400; nan; 320; 240] 640 480 None = Fatal msg.
Proof.
  apply (construct_rejects_nan [0.9; 400; nan; 320; 240] 640 480 None 2).
  - lia.
  - reflexivity.
Defined.

(** X9. The constructor from five scalars succeeds exactly when xi >= 0 and
    the focal lengths and the image centre are > 0, and the camera it
    returns gives the five scalars back through [xi], [fu], [fv], [cu],
    [cv] and keeps the image size and the distortion. *)
Theorem construct_scalars_accessors
        (xi0 fu0 fv0 cu0 cv0 : float) (w h : Z) (dist : option Distortion) :
  ((exists cam, construct_scalars xi0 fu0 fv0 cu0 cv0 w h dist = Ok cam)
   <-> (xi0 >=? 0) = true /\ (fu0 >? 0) = true /\ (fv0 >? 0) = true
       /\ (cu0 >? 0) = true /\ (cv0 >? 0) = true)
  /\
  (forall cam, construct_scalars xi0 fu0 fv0 cu0 cv0 w h dist = Ok cam ->
     xi cam = xi0 /\ fu cam = fu0 /\ fv cam = fv0
     /\ cu cam = cu0 /\ cv cam = cv0
     /\ image_width_ cam = w /\ image_height_ cam = h
     /\ distortion_ cam = dist).
Proof.
  unfold construct_scalars, construct, intrinsicsValid.
  change (size [xi0; fu0; fv0; cu0; cv0] =? parameterCount)%Z with true.
  change (coeff [xi0; fu0; fv0; cu0; cv0] 0) with xi0.
  change (coeff [xi0; fu0; fv0; cu0; cv0] 1) with fu0.
  change (coeff [xi0; fu0; fv0; cu0; cv0] 2) with fv0.
  change (coeff [xi0; fu0; fv0; cu0; cv0] 3) with cu0.
  change (coeff [xi0; fu0; fv0; cu0; cv0] 4) with cv0.
  destruct (xi0 >=? 0), (fu0 >? 0), (fv0 >? 0), (cu0 >? 0), (cv0 >? 0); simpl;
    (split;
     [ split;
       [ intros [cam H]; try discriminate H; repeat split; reflexivity
       | intros (H0 & H1 & H2 & H3 & H4); try discriminate;
         eexists; reflexivity ]
     | intros cam H; try discriminate H; injection H as <-;
       repeat split; reflexivity ]).
Qed.

(** *** Comparison *)

(** X10. [operator==] answers true exactly when the argument is a unified
    projection camera, the base comparison holds, and either neither camera
    has a distortion or both have one and the two distortions compare
    equal; a camera of another model, and a camera that differs in having a
    distortion, are never equal to this one. *)
Theorem operator_eq_iff
        (base_equal : UnifiedProjectionCamera -> UnifiedProjectionCamera -> bool)
        (distortion_equal : Distortion -> Distortion -> bool)
        (this : UnifiedProjectionCamera) (other : option UnifiedProjectionCamera) :
  operator_eq base_equal distortion_equal this other = true
  <->
  exists rhs,
    other = Some rhs
    /\ base_equal this rhs = true
    /\ match distortion_ this, distortion_ rhs with
       | None, None => True
       | Some a, Some b => distortion_equal a b = true
       | _, _ => False
       end.
Proof.
  unfold operator_eq. destruct other as [rhs|].
  - split.
    + intros H. exists rhs. split; [reflexivity|].
      destruct (base_equal this rhs); [|discriminate H].
      split; [reflexivity|].
      destruct (distortion_ this) as [a|], (distortion_ rhs) as [b|];
        simpl in H |- *; try discriminate H; try exact I.
      destruct (distortion_equal a b); [reflexivity | discriminate H].
    + intros (rhs' & [= <-] & Hb & Hd). rewrite Hb. simpl.
      destruct (distortion_ this) as [a|], (distortion_ rhs) as [b|];
        simpl; try contradiction; try reflexivity.
      rewrite Hd. reflexivity.
  - split; [discriminate | intros (rhs & H & _); discriminate].
Qed.

(** X11. [operator==] is symmetric between two unified projection cameras
    whenever the base comparison and the comparison of distortions are. *)
Theorem operator_eq_sym
        (base_equal : UnifiedProjectionCamera -> UnifiedProjectionCamera -> bool)
        (distortion_equal : Distortion -> Distortion -> bool)
        (a b : UnifiedProjectionCamera) :
  (forall x y, base_equal x y = base_equal y x) ->
  (forall x y, distortion_equal x y = distortion_equal y x) ->
  operator_eq base_equal distortion_equal a (Some b)
  = operator_eq base_equal distortion_equal b (Some a).
Proof.
  intros Hbase Hdist. unfold operator_eq.
  rewrite (Hbase a b).
  destruct (base_equal b a), (distortion_ a) as [x|], (distortion_ b) as [y|];
    simpl; try reflexivity.
  rewrite (Hdist x y). reflexivity.
Qed.

Lemma operator_eq_sym_witness :
  operator_eq (fun x y => (image_width_ x =? image_width_ y)%Z)
              (fun _ _ => true) test_camera (Some radial_camera)
  = operator_eq (fun x y => (image_width_ x =? image_width_ y)%Z)
                (fun _ _ => true) radial_camera (Some test_camera).
Proof.
  apply (operator_eq_sym (fun x y => (image_width_ x =? image_width_ y)%Z)
                         (fun _ _ => true) test_camera radial_camera).
  - intros x y. apply Z.eqb_sym.
  - intros x y. reflexivity.
Defined.
End InterfaceFacts.

Module SamplingEdgeFacts.
Import Camera CameraInterface Examples.
Local Open Scope float_scope.

(** Two generators that agree on the first nine draws drive the loop to the
    same result. *)
Lemma createRandomKeypoint_loop_agree
      (cam : UnifiedProjectionCamera) (rng1 rng2 : nat -> Draw) :
  (forall j, (j < 9)%nat -> rng1 j = rng2 j) ->
  forall (fuel k : nat) (t : Z) (u : Vector2d),
    t = (10 - Z.of_nat k)%Z ->
    createRandomKeypoint_loop fuel cam rng1 k t u
    = createRandomKeypoint_loop fuel cam rng2 k t u.
Proof.
  intros Hagree. induction fuel as [|fuel IH]; intros k t u Ht; [reflexivity|].
  rewrite !SamplingFacts.createRandomKeypoint_loop_step.
  destruct (isLiftable cam u && isKeypointVisible cam u); [reflexivity|].
  destruct (t - 1 <? 1)%Z eqn:Hlast; [reflexivity|].
  apply Z.ltb_ge in Hlast.
  rewrite (Hagree k) by lia.
  apply IH. lia.
Qed.

(** X12. The tenth draw is consumed but never used: two sequences of draws
    that agree on the first nine give the same keypoint and the same number
    of draws, so a sample can only come from draws 1 to 9. *)
Theorem createRandomKeypoint_tenth_draw_unused
        (cam : UnifiedProjectionCamera) (rng1 rng2 : nat -> Draw) :
  (forall j, (j < 9)%nat -> rng1 j = rng2 j) ->
  createRandomKeypoint cam rng1 = createRandomKeypoint cam rng2.
Proof.
  intros Hagree. unfold createRandomKeypoint, createRandomKeypoint_fuel.
  apply createRandomKeypoint_loop_agree; [exact Hagree | reflexivity].
Qed.

Lemma createRandomKeypoint_tenth_draw_unused_witness :
  createRandomKeypoint test_camera
    (fun j => if (j <? 9)%nat
              then {| rnd_vector := V2 1 0.5; rnd_int := RAND_MAX |}
              else {| rnd_vector := V2 0.7 0.1; rnd_int := 1000000 |})
  = createRandomKeypoint test_camera (constant_rng (V2 1 0.5) RAND_MAX).
Proof.
  apply (createRandomKeypoint_tenth_draw_unused test_camera
           (fun j => if (j <? 9)%nat
                     then {| rnd_vector := V2 1 0.5; rnd_int := RAND_MAX |}
                     else {| rnd_vector := V2 0.7 0.1; rnd_int := 1000000 |})
           (constant_rng (V2 1 0.5) RAND_MAX)).
  intros j Hj. apply Nat.ltb_lt in Hj. rewrite Hj. reflexivity.
Defined.

(** X13. [createRandomVisiblePoint] aborts on a depth that is not greater
    than zero (zero, negative or NaN), whatever the camera and the
    generator, and before the generator is read. *)
Theorem createRandomVisiblePoint_depth
        (cam : UnifiedProjectionCamera) (depth : float) (rng : nat -> Draw) :
  (depth <=? 0) = true \/ depth = nan ->
  createRandomVisiblePoint cam depth rng
  = Some (Fatal "Depth needs to be positive!").
Proof.
  intros Hdepth. unfold createRandomVisiblePoint.
  assert (Hgt : (depth >? 0) = false).
  { destruct Hdepth as [Hle | ->].
    - apply DoubleFacts.leb_not_gtb. exact Hle.
    - unfold Double.gtb. apply NaNFacts.ltb_nan_r. }
  rewrite Hgt. reflexivity.
Qed.

Lemma createRandomVisiblePoint_depth_witness :
  createRandomVisiblePoint test_camera (-1) (constant_rng (V2 0.7 0.1) 1000000)
  = Some (Fatal "Depth needs to be positive!").
Proof.
  apply (createRandomVisiblePoint_depth test_camera (-1)
           (constant_rng (V2 0.7 0.1) 1000000)).
  left. reflexivity.
Defined.

(** X14. On a camera with xi <= 1 and for a depth greater than zero,
    [createRandomVisiblePoint] never aborts, whatever the draws: the
    keypoint that [createRandomKeypoint] returns back-projects with a true
    flag, and the point returned is its bearing vector divided by its norm
    and multiplied by the depth. *)
Theorem createRandomVisiblePoint_small_xi
        (cam : UnifiedProjectionCamera) (depth : float) (rng : nat -> Draw) :
  (xi cam <=? 1) = true ->
  (depth >? 0) = true ->
  exists (y : Vector2d) (k : nat),
    createRandomKeypoint cam rng = Some (y, k)
    /\ (k <= 10)%nat
    /\ let b := Spec.bearing (xi cam)
                             (Spec.undistorted cam (Spec.unaffine cam y)) in
       let n := norm3 b in
       createRandomVisiblePoint cam depth rng
       = Some (Ok (V3 (v3_0 b / n * depth) (v3_1 b / n * depth)
                      (v3_2 b / n * depth), k)).
Proof.
  intros Hxi Hdepth.
  destruct (SamplingFacts.createRandomKeypoint_loop_returns
              cam rng 10 0 10 (V2 (imageWidth cam + 1) (imageHeight cam + 1)))
    as (y & k & Hrun & Hout); [lia | lia | lia | intros j [=] |].
  exists y, k.
  assert (Hk : createRandomKeypoint cam rng = Some (y, k)) by exact Hrun.
  split; [exact Hk|]. split.
  - destruct Hout as [(_ & Hlt & _) | (-> & _)]; lia.
  - unfold createRandomVisiblePoint. rewrite Hdepth, Hk. simpl negb. cbv iota.
    unfold createRandomVisiblePoint_from. rewrite Hdepth. simpl negb. cbv iota.
    rewrite BackProjectionFacts.backProject3_spec.
    unfold isUndistortedKeypointValid. rewrite Hxi. reflexivity.
Qed.

Lemma createRandomVisiblePoint_small_xi_witness :
  exists (y : Vector2d) (k : nat),
    createRandomKeypoint test_camera (constant_rng (V2 0.7 0.1) 1000000)
    = Some (y, k)
    /\ (k <= 10)%nat
    /\ let b := Spec.bearing (xi test_camera)
                  (Spec.undistorted test_camera (Spec.unaffine test_camera y)) in
       let n := norm3 b in
       createRandomVisiblePoint test_camera 2 (constant_rng (V2 0.7 0.1) 1000000)
       = Some (Ok (V3 (v3_0 b / n * 2) (v3_1 b / n * 2) (v3_2 b / n * 2), k)).
Proof.
  apply (createRandomVisiblePoint_small_xi test_camera 2
           (constant_rng (V2 0.7 0.1) 1000000)).
  - vm_compute. reflexivity.
  - vm_compute. reflexivity.
Defined.
End SamplingEdgeFacts.
